(** * Billing-state reconciliation of bandldisposal

    A shallow embedding of the billing hooks of the Payload collections
    [residential-billing] (beforeChange, afterChange, afterDelete),
    [commercial-accounts] (beforeChange: next billing date and lateness),
    [invoices] (beforeChange: invoice numbering) and of the notification
    helpers [createStripeInvoice], [getInvoicePaymentLink] and
    [sendInvoiceEmail].

    Conventions of the model.
    - A JavaScript [Date] is a time value in milliseconds ([Z]); the local
      time zone is UTC, so [getDate], [setDate], [setMonth], ... follow the
      ECMAScript [MakeDay] arithmetic with day overflow.
    - A date-only string (["2024-04-14"]) is identified with the time value
      of its midnight, which is what [new Date("2024-04-14")] returns.
    - Money amounts are integers ([Z]) in the reconciliation model; a
      missing number read as [x || 0] is 0, so the fields store the value
      after that default. Module [DLedger] redoes the balance arithmetic
      in JavaScript numbers (IEEE-754 binary64, [Double]) and shows that
      it agrees with the integer model while the amounts are whole numbers
      below 2^53.
    - The account and billing-record collections are [gmap]s keyed by id. *)

From Stdlib Require Import ZArith Lia Bool Ascii String SpecFloat.
From stdpp Require Import base gmap strings list.
Open Scope Z_scope.

(* ------------------------------------------------------------------ *)
(** ** JavaScript dates *)

Module JSDate.

Definition msPerDay : Z := 86400000.

Definition day_number (t : Z) : Z := t / msPerDay.
Definition time_in_day (t : Z) : Z := t mod msPerDay.

(** Day number (days since 1970-01-01) of a proleptic Gregorian date,
    month in 1..12. *)
Definition days_from_civil (y m d : Z) : Z :=
  let y' := if m <=? 2 then y - 1 else y in
  let era := y' / 400 in
  let yoe := y' - era * 400 in
  let doy := (153 * (if 2 <? m then m - 3 else m + 9) + 2) / 5 + d - 1 in
  let doe := yoe * 365 + yoe / 4 - yoe / 100 + doy in
  era * 146097 + doe - 719468.

(** Inverse: (year, month in 1..12, day) of a day number. *)
Definition civil_from_days (z : Z) : Z * Z * Z :=
  let z' := z + 719468 in
  let era := z' / 146097 in
  let doe := z' - era * 146097 in
  let yoe := (doe - doe / 1460 + doe / 36524 - doe / 146096) / 365 in
  let doy := doe - (365 * yoe + yoe / 4 - yoe / 100) in
  let mp := (5 * doy + 2) / 153 in
  let d := doy - (153 * mp + 2) / 5 + 1 in
  let m := if mp <? 10 then mp + 3 else mp - 9 in
  let y := yoe + era * 400 in
  ((if m <=? 2 then y + 1 else y), m, d).

Definition getFullYear (t : Z) : Z := fst (fst (civil_from_days (day_number t))).
(** 0-based, as in JavaScript *)
Definition getMonth (t : Z) : Z := snd (fst (civil_from_days (day_number t))) - 1.
Definition getDate (t : Z) : Z := snd (civil_from_days (day_number t)).

(** ECMAScript MakeDay: month and date may be out of range and overflow
    into the following months and years. *)
Definition MakeDay (year month date : Z) : Z :=
  days_from_civil (year + month / 12) (month mod 12 + 1) 1 + date - 1.

Definition setDate (t date : Z) : Z :=
  MakeDay (getFullYear t) (getMonth t) date * msPerDay + time_in_day t.
Definition setMonth (t month : Z) : Z :=
  MakeDay (getFullYear t) month (getDate t) * msPerDay + time_in_day t.
Definition setFullYear (t year : Z) : Z :=
  MakeDay year (getMonth t) (getDate t) * msPerDay + time_in_day t.
(** [d.setHours(0, 0, 0, 0)] *)
Definition setHours0 (t : Z) : Z := day_number t * msPerDay.

(** [new Date(d.toISOString().split('T')[0])]: the date part of [t] read
    back as a date-only value. *)
Definition date_only (t : Z) : Z := day_number t * msPerDay.

(** Midnight of a calendar date (what [new Date("YYYY-MM-DD")] returns). *)
Definition ymd (y m d : Z) : Z := days_from_civil y m d * msPerDay.

(** [d.setDate(d.getDate() + n)] *)
Definition add_days (t n : Z) : Z := setDate t (getDate t + n).

End JSDate.

(* ------------------------------------------------------------------ *)
(** ** Strings: [String(n)], [padStart] and ISO dates *)

Module JSString.

Definition digit_char (n : nat) : ascii := ascii_of_nat (48 + n).

Fixpoint digits_go (fuel n : nat) (acc : string) : string :=
  match fuel with
  | O => acc
  | S f =>
      let acc' := String (digit_char (n mod 10)) acc in
      if Nat.ltb n 10 then acc' else digits_go f (n / 10) acc'
  end.

(** [String(n)] for a natural number *)
Definition nat_to_string (n : nat) : string := digits_go (S n) n EmptyString.

Fixpoint repeat_char (c : ascii) (k : nat) : string :=
  match k with O => EmptyString | S k' => String c (repeat_char c k') end.

(** [s.padStart(w, c)]: left-pad to width [w]; never truncates. *)
Definition padStart (s : string) (w : nat) (c : ascii) : string :=
  append (repeat_char c (w - String.length s)) s.

Definition zeroPad6 (n : nat) : string := padStart (nat_to_string n) 6 "0"%char.

(** [String.prototype.startsWith] *)
Definition startsWith (s prefix : string) : bool :=
  String.prefix prefix s.

Fixpoint lower (s : string) : string :=
  match s with
  | EmptyString => EmptyString
  | String c s' =>
      let n := nat_of_ascii c in
      String (if Nat.leb 65 n && Nat.leb n 90 then ascii_of_nat (n + 32) else c)
             (lower s')
  end.

(** substring test *)
Fixpoint contains_sub (s sub : string) : bool :=
  String.prefix sub s ||
  match s with EmptyString => false | String _ s' => contains_sub s' sub end.

(** The [contains] operator of the Payload query language (MongoDB
    adapter): case-insensitive substring match. *)
Definition contains (s sub : string) : bool := contains_sub (lower s) (lower sub).

(** [d.toISOString().split('T')[0]] *)
Definition iso_date (t : Z) : string :=
  let '(y, m, d) := JSDate.civil_from_days (JSDate.day_number t) in
  append (padStart (nat_to_string (Z.to_nat y)) 4 "0"%char)
    (append "-" (append (padStart (nat_to_string (Z.to_nat m)) 2 "0"%char)
      (append "-" (padStart (nat_to_string (Z.to_nat d)) 2 "0"%char)))).

End JSString.

(* ------------------------------------------------------------------ *)
(** ** Data model *)

Inductive cadence := Weekly | BiWeekly | Monthly | Quarterly | Annually.
Inductive lateness := Current | Late.
(** [status] of a residential billing record *)
Inductive bstatus := Pending | Paid | Overdue | Cancelled.
Inductive operation := OpCreate | OpUpdate | OpDelete.

Definition is_paid (s : option bstatus) : bool :=
  match s with Some Paid => true | _ => false end.
Definition is_cancelled (s : option bstatus) : bool :=
  match s with Some Cancelled => true | _ => false end.
(** [!status || status === 'pending'] *)
Definition unset_or_pending (s : option bstatus) : bool :=
  match s with None | Some Pending => true | _ => false end.
Definition is_pending (s : option bstatus) : bool :=
  match s with Some Pending => true | _ => false end.

(** The [billingInfo] group of an account. *)
Record BillingInfo := mkBillingInfo {
  billingInfo_billingDate : option Z;   (** day of month *)
  billingCadence : option cadence;
  nextBillingDate : option Z;
  accountBalance : Z;                   (** [accountBalance || 0] *)
}.

(** The [paymentInfo] group of an account. *)
Record PaymentInfo := mkPaymentInfo {
  lastPaymentDate : option Z;
  lastPaymentAmount : option Z;
  isLate : option lateness;
  gracePeriodDays : option Z;
  latePaymentCount : Z;
}.

Record Account := mkAccount {
  accountNumber : string;
  email : option string;
  stripeCustomerId : option string;
  serviceStartDate : option Z;
  billingInfo : BillingInfo;
  paymentInfo : PaymentInfo;
}.

(** A document of the [residential-billing] collection. [account] is
    [Some id] when the relationship holds a string id; an absent or
    populated (object) relationship is [None], the case the hooks skip. *)
Record BillingRecord := mkBillingRecord {
  rec_id : string;
  account : option string;
  billingNumber : option string;
  amount : Z;                 (** [doc.amount || 0] *)
  billingDate : option Z;
  dueDate : option Z;
  status : option bstatus;
  paidDate : option Z;
  paidAmount : Z;             (** [doc.paidAmount || 0] *)
  stripeInvoiceId : option string;
}.

(** Record-update helpers ([{ ...x, f: v }]) *)
Definition set_balance (bi : BillingInfo) (b : Z) : BillingInfo :=
  mkBillingInfo (billingInfo_billingDate bi) (billingCadence bi)
    (nextBillingDate bi) b.
Definition set_nextBillingDate (bi : BillingInfo) (d : Z) : BillingInfo :=
  mkBillingInfo (billingInfo_billingDate bi) (billingCadence bi)
    (Some d) (accountBalance bi).
Definition set_payment (pi : PaymentInfo) (d : Z) (a : Z) : PaymentInfo :=
  mkPaymentInfo (Some d) (Some a) (isLate pi) (gracePeriodDays pi)
    (latePaymentCount pi).
Definition set_isLate (pi : PaymentInfo) (l : lateness) : PaymentInfo :=
  mkPaymentInfo (lastPaymentDate pi) (lastPaymentAmount pi) (Some l)
    (gracePeriodDays pi) (latePaymentCount pi).
Definition set_status (r : BillingRecord) (s : bstatus) : BillingRecord :=
  mkBillingRecord (rec_id r) (account r) (billingNumber r) (amount r)
    (billingDate r) (dueDate r) (Some s) (paidDate r) (paidAmount r)
    (stripeInvoiceId r).
Definition set_billingNumber (r : BillingRecord) (n : string) : BillingRecord :=
  mkBillingRecord (rec_id r) (account r) (Some n) (amount r)
    (billingDate r) (dueDate r) (status r) (paidDate r) (paidAmount r)
    (stripeInvoiceId r).
Definition set_dueDate (r : BillingRecord) (d : Z) : BillingRecord :=
  mkBillingRecord (rec_id r) (account r) (billingNumber r) (amount r)
    (billingDate r) (Some d) (status r) (paidDate r) (paidAmount r)
    (stripeInvoiceId r).
Definition set_stripeInvoiceId (r : BillingRecord) (i : string) : BillingRecord :=
  mkBillingRecord (rec_id r) (account r) (billingNumber r) (amount r)
    (billingDate r) (dueDate r) (status r) (paidDate r) (paidAmount r)
    (Some i).

(** [x || d] on a number: 0 (and a missing value) falls back to [d]. *)
Definition or_num (x d : Z) : Z := if x =? 0 then d else x.
(** [paymentInfo.gracePeriodDays || 5] *)
Definition grace_or_default (g : option Z) : Z :=
  match g with Some x => or_num x 5 | None => 5 end.

(* ------------------------------------------------------------------ *)
(** ** residential-billing: beforeChange *)

Module BillingBefore.

(** [data.billingNumber = `BILL-${String(count.totalDocs + 1).padStart(6, '0')}`] *)
Definition bill_number (totalDocs : nat) : string :=
  append "BILL-" (JSString.zeroPad6 (S totalDocs)).

(** The hook, with [totalDocs] the record count returned by
    [req.payload.count] and [today] the time of [new Date()]. *)
Definition beforeChange (op : operation) (data : BillingRecord)
    (totalDocs : nat) (today : Z) : BillingRecord :=
  let d1 :=
    (* operation === 'create' && !data.billingNumber: absent or empty *)
    match op, billingNumber data with
    | OpCreate, (None | Some EmptyString) => set_billingNumber data (bill_number totalDocs)
    | _, _ => data
    end in
  let d2 :=
    match billingDate d1, dueDate d1 with
    | Some bd, None =>
        (* dueDate.setDate(dueDate.getDate() + 30), then its ISO date *)
        set_dueDate d1 (JSDate.date_only (JSDate.add_days bd 30))
    | _, _ => d1
    end in
  match dueDate d2 with
  | Some due =>
      if negb (is_paid (status d2)) && negb (is_cancelled (status d2)) then
        if (JSDate.setHours0 due <? JSDate.setHours0 today)
           && unset_or_pending (status d2)
        then set_status d2 Overdue else d2
      else d2
  | None => d2
  end.

End BillingBefore.

(* ------------------------------------------------------------------ *)
(** ** residential-billing: afterChange, the computation of [updateData] *)

Module Reconcile.

(** [updateData]: the [billingInfo] group always, the [paymentInfo]
    group when one of the branches sets it. *)
Record UpdateData := mkUpdateData {
  ud_billingInfo : BillingInfo;
  ud_paymentInfo : option PaymentInfo;
}.

(** [balanceChange] *)
Definition balance_change (op : operation) (prev : option BillingRecord)
    (doc : BillingRecord) : Z :=
  match op, prev with
  | OpCreate, _ => amount doc
  | OpUpdate, Some p => amount doc - amount p
  | OpUpdate, None => 0
  | OpDelete, _ => - amount doc
  end.

(** The block "Handle payment status updates", applied to the freshly
    built [updateData] whose balance is [newBalance]. *)
Definition payment_status_update (op : operation) (prev : option BillingRecord)
    (doc : BillingRecord) (acc : Account) (today : Z) (ud : UpdateData)
    : UpdateData :=
  let newBalance := accountBalance (ud_billingInfo ud) in
  let bi := ud_billingInfo ud in
  match op, prev with
  | OpUpdate, Some p =>
      let previousStatus := status p in
      let currentStatus := status doc in
      let previousPaidAmount := paidAmount p in
      let currentPaidAmount := paidAmount doc in
      if is_paid currentStatus && negb (is_paid previousStatus) then
        (* currentPaidAmount || doc.amount || 0 *)
        let pa := or_num currentPaidAmount (amount doc) in
        let pi := set_payment (paymentInfo acc)
                    (match paidDate doc with
                     | Some d => d | None => JSDate.date_only today end) pa in
        mkUpdateData
          (if 0 <? pa then set_balance bi (Z.max 0 (newBalance - pa)) else bi)
          (Some pi)
      else if is_paid previousStatus && negb (is_paid currentStatus) then
        mkUpdateData
          (if 0 <? previousPaidAmount
           then set_balance bi (newBalance + previousPaidAmount) else bi)
          (ud_paymentInfo ud)
      else if is_paid currentStatus && is_paid previousStatus then
        let diff := currentPaidAmount - previousPaidAmount in
        if negb (diff =? 0) then
          mkUpdateData (set_balance bi (Z.max 0 (newBalance - diff)))
            (if 0 <? currentPaidAmount then
               Some (set_payment (paymentInfo acc)
                       (match paidDate doc with
                        | Some d => d
                        | None =>
                            match lastPaymentDate (paymentInfo acc) with
                            | Some l => l | None => JSDate.date_only today end
                        end) currentPaidAmount)
             else ud_paymentInfo ud)
        else ud
      else ud
  | _, _ => ud
  end.

(** The block "Check if bill is overdue and update account late status".
    Returns the new [updateData] and whether the record itself is written
    with status [overdue]. *)
Definition overdue_update (doc : BillingRecord) (acc : Account) (today : Z)
    (ud : UpdateData) : UpdateData * bool :=
  match dueDate doc with
  | Some due =>
      if negb (is_paid (status doc)) && negb (is_cancelled (status doc)) then
        let g := grace_or_default (gracePeriodDays (paymentInfo acc)) in
        let lateDate := JSDate.add_days due g in
        let isOverdue := lateDate <? today in
        let pi := match ud_paymentInfo ud with
                  | Some p => p | None => paymentInfo acc end in
        let bal := accountBalance (ud_billingInfo ud) in
        let lpd := match lastPaymentDate pi with
                   | Some l => Some l
                   | None => lastPaymentDate (paymentInfo acc) end in
        let pi' :=
          if isOverdue && (0 <? bal) then
            set_isLate pi (match lpd with
                           | None => Late
                           | Some l => if l <? due then Late else Current end)
          else if bal <=? 0 then set_isLate pi Current
          else pi in
        (mkUpdateData (ud_billingInfo ud) (Some pi'),
         isOverdue && is_pending (status doc))
      else (ud, false)
  | None => (ud, false)
  end.

(** The whole [updateData] of afterChange, for an account that was found. *)
Definition plan (op : operation) (prev : option BillingRecord)
    (doc : BillingRecord) (acc : Account) (today : Z) : UpdateData * bool :=
  let newBalance := accountBalance (billingInfo acc) + balance_change op prev doc in
  let ud0 := mkUpdateData (set_balance (billingInfo acc) newBalance) None in
  overdue_update doc acc today (payment_status_update op prev doc acc today ud0).

(** [req.payload.update({ collection: 'accounts', data })]: the groups
    present in [data] replace the stored ones. *)
Definition apply_update (acc : Account) (ud : UpdateData) : Account :=
  mkAccount (accountNumber acc) (email acc) (stripeCustomerId acc)
    (serviceStartDate acc) (ud_billingInfo ud)
    (match ud_paymentInfo ud with Some p => p | None => paymentInfo acc end).

(** The account as written by one afterChange run. *)
Definition account_after_change (op : operation) (prev : option BillingRecord)
    (doc : BillingRecord) (acc : Account) (today : Z) : Account :=
  apply_update acc (fst (plan op prev doc acc today)).

(** afterDelete: only [billingInfo.accountBalance] is rewritten. *)
Definition delete_update (doc : BillingRecord) (acc : Account) : UpdateData :=
  mkUpdateData
    (set_balance (billingInfo acc) (accountBalance (billingInfo acc) - amount doc))
    None.

Definition account_after_delete (doc : BillingRecord) (acc : Account) : Account :=
  apply_update acc (delete_update doc acc).

End Reconcile.

(* ------------------------------------------------------------------ *)
(** ** Effects: storage, Stripe and e-mail as a state and error monad *)

Module Effects.
Import Reconcile.

(** Calls the hooks make; a call listed in [failing] throws. *)
Inductive call :=
  | CWriteRecord           (** the billing-record write of the mutation *)
  | CFindAccount           (** [req.payload.findByID] on accounts *)
  | CUpdateAccount         (** [req.payload.update] on accounts *)
  | CUpdateRecord          (** [req.payload.update] on residential-billing *)
  | CCreateStripeInvoice   (** [createStripeInvoice] is invoked *)
  | CStripeApi             (** the Stripe API requests of [createStripeInvoice] *)
  | CGetInvoicePaymentLink (** [getInvoicePaymentLink] *)
  | CSendInvoiceEmail.     (** [sendInvoiceEmail] (SMTP errors) *)

Definition call_eqb (a b : call) : bool :=
  match a, b with
  | CWriteRecord, CWriteRecord | CFindAccount, CFindAccount
  | CUpdateAccount, CUpdateAccount | CUpdateRecord, CUpdateRecord
  | CCreateStripeInvoice, CCreateStripeInvoice | CStripeApi, CStripeApi
  | CGetInvoicePaymentLink, CGetInvoicePaymentLink
  | CSendInvoiceEmail, CSendInvoiceEmail => true
  | _, _ => false
  end.

Record World := mkWorld {
  accounts : gmap string Account;
  records : gmap string BillingRecord;
  failing : list call;
  stripe_configured : bool;       (** [getStripe()] is not null *)
  smtp_configured : bool;         (** [process.env.SMTP_HOST] *)
  trace : list (call * bool);     (** every call made, and whether it succeeded *)
  outbox : list (string * option string); (** e-mails sent: recipient, payment link *)
  log : list string;              (** console.error / console.warn *)
}.

Definition fails (w : World) (c : call) : bool := existsb (call_eqb c) (failing w).

Definition w_accounts (w : World) (a : gmap string Account) : World :=
  mkWorld a (records w) (failing w) (stripe_configured w) (smtp_configured w)
    (trace w) (outbox w) (log w).
Definition w_records (w : World) (r : gmap string BillingRecord) : World :=
  mkWorld (accounts w) r (failing w) (stripe_configured w) (smtp_configured w)
    (trace w) (outbox w) (log w).
Definition w_trace (w : World) (c : call) (ok : bool) : World :=
  mkWorld (accounts w) (records w) (failing w) (stripe_configured w)
    (smtp_configured w) (trace w ++ [(c, ok)]) (outbox w) (log w).
Definition w_outbox (w : World) (m : string * option string) : World :=
  mkWorld (accounts w) (records w) (failing w) (stripe_configured w)
    (smtp_configured w) (trace w) (outbox w ++ [m]) (log w).
Definition w_log (w : World) (s : string) : World :=
  mkWorld (accounts w) (records w) (failing w) (stripe_configured w)
    (smtp_configured w) (trace w) (outbox w) (log w ++ [s]).

Inductive result (A : Type) := Ok (a : A) | Err (e : string).
Arguments Ok {A} a.
Arguments Err {A} e.

Definition M (A : Type) : Type := World -> result A * World.

Definition ret {A} (a : A) : M A := fun w => (Ok a, w).
Definition bind {A B} (m : M A) (k : A -> M B) : M B :=
  fun w => match m w with
           | (Ok a, w') => k a w'
           | (Err e, w') => (Err e, w')
           end.
Definition throw {A} (e : string) : M A := fun w => (Err e, w).
#[global] Instance M_ret : MRet M := @ret.
#[global] Instance M_bind : MBind M := fun A B k m => bind m k.

(** [try { m } catch (e) { h(e) }] *)
Definition try_catch {A} (m : M A) (h : string -> M A) : M A :=
  fun w => match m w with
           | (Ok a, w') => (Ok a, w')
           | (Err e, w') => h e w'
           end.

Definition console (s : string) : M unit := fun w => (Ok tt, w_log w s).

(** A call that throws when it is listed in [failing], and otherwise runs
    [k]; either way it is recorded in the trace. *)
Definition attempt {A} (c : call) (k : M A) : M A :=
  fun w => if fails w c then (Err "call failed", w_trace w c false)
           else k (w_trace w c true).

(** A helper invocation, recorded in the trace. *)
Definition invoke (c : call) : M unit := fun w => (Ok tt, w_trace w c true).

Definition get_world : M World := fun w => (Ok w, w).
Definition put_world (w : World) : M unit := fun _ => (Ok tt, w).

(** [req.payload.findByID({ collection: 'accounts', id })]: a missing
    id throws [NotFound], so the hooks' [if (!account)] branches are never
    taken. *)
Definition findAccount (id : string) : M (option Account) :=
  attempt CFindAccount
    (w ← get_world;
     match accounts w !! id with
     | Some acc => ret (Some acc)
     | None => throw "NotFound"
     end).

(** [req.payload.update({ collection: 'accounts', id, data })] *)
Definition updateAccount (id : string) (ud : UpdateData) : M unit :=
  attempt CUpdateAccount
    (w ← get_world;
     match accounts w !! id with
     | Some acc => put_world (w_accounts w (<[id := apply_update acc ud]> (accounts w)))
     | None => throw "NotFound"
     end).

(** [req.payload.update({ collection: 'residential-billing', id, data })];
    the nested run of the collection's hooks it causes is not modelled. *)
Definition updateRecord (id : string) (f : BillingRecord -> BillingRecord) : M unit :=
  attempt CUpdateRecord
    (w ← get_world;
     match records w !! id with
     | Some r => put_world (w_records w (<[id := f r]> (records w)))
     | None => throw "NotFound"
     end).

(** [createStripeInvoice]: [null] when Stripe is not configured or the
    account has no Stripe customer, the finalized invoice id otherwise; a
    Stripe API error is rethrown. *)
Definition createStripeInvoice (acc : Account) (doc : BillingRecord)
    : M (option string) :=
  invoke CCreateStripeInvoice ;;
  w ← get_world;
  if negb (stripe_configured w) then
    console "Stripe not configured - skipping invoice creation" ;; ret None
  else match stripeCustomerId acc with
       | None => console "Account does not have a Stripe customer ID" ;; ret None
       | Some _ =>
           try_catch
             (attempt CStripeApi (ret (Some (append "in_" (rec_id doc)))))
             (fun e => console "Error creating Stripe invoice:" ;;
                       throw e)
       end.

(** [getInvoicePaymentLink]: errors are caught and give [null]. *)
Definition getInvoicePaymentLink (invoiceId : string) : M (option string) :=
  w ← get_world;
  if negb (stripe_configured w) then ret None
  else try_catch
         (attempt CGetInvoicePaymentLink
            (ret (Some (append "https://invoice.stripe.com/i/" invoiceId))))
         (fun _ => console "Error retrieving invoice payment link:" ;; ret None).

(** [sendInvoiceEmail]: skipped without an address or SMTP configuration;
    transport errors are caught inside. *)
Definition sendInvoiceEmail (acc : Account) (doc : BillingRecord)
    (invoiceId : option string) (paymentLink : option string) : M unit :=
  match email acc with
  | None => console "Account does not have an email address"
  | Some addr =>
      w ← get_world;
      if negb (smtp_configured w) then console "SMTP not configured - skipping invoice email"
      else try_catch
             (attempt CSendInvoiceEmail
                (fun w => (Ok tt, w_outbox w (addr, paymentLink))))
             (fun _ => console "Error sending invoice email:")
  end.

(** The invoice-and-email block of afterChange. *)
Definition notify (acc : Account) (doc : BillingRecord) : M unit :=
  try_catch
    (invoiceId ← createStripeInvoice acc doc;
     match invoiceId with
     | Some iid =>
         updateRecord (rec_id doc) (fun r => set_stripeInvoiceId r iid) ;;
         paymentLink ← getInvoicePaymentLink iid;
         sendInvoiceEmail acc doc (Some iid) paymentLink
     | None => sendInvoiceEmail acc doc None None
     end)
    (fun _ => console "Error creating Stripe invoice or sending email:" ;;
              try_catch (sendInvoiceEmail acc doc None None)
                        (fun _ => console "Error sending invoice email:")).

Definition notifies (op : operation) (doc : BillingRecord) : bool :=
  match op with OpCreate => negb (is_cancelled (status doc)) | _ => false end.

(** afterChange of [residential-billing]. *)
Definition afterChange (op : operation) (prev : option BillingRecord)
    (doc : BillingRecord) (today : Z) : M unit :=
  match account doc with
  | None => ret tt
  | Some aid =>
      try_catch
        (oacc ← findAccount aid;
         match oacc with
         | None => console "Account not found for billing record:"
         | Some acc =>
             let '(ud, write_overdue) := plan op prev doc acc today in
             (if write_overdue
              then updateRecord (rec_id doc) (fun r => set_status r Overdue)
              else ret tt) ;;
             updateAccount aid ud ;;
             if notifies op doc then notify acc doc else ret tt
         end)
        (fun _ => console "Error updating account from billing record:")
  end.

(** afterDelete of [residential-billing]. *)
Definition afterDelete (doc : BillingRecord) : M unit :=
  match account doc with
  | None => ret tt
  | Some aid =>
      try_catch
        (oacc ← findAccount aid;
         match oacc with
         | None => ret tt
         | Some acc => updateAccount aid (delete_update doc acc)
         end)
        (fun _ => console "Error updating account balance after billing deletion:")
  end.

(** A create or update of a billing record: beforeChange, the record
    write, afterChange. For an update, [data] is the incoming document
    and [previousDoc] the stored one. *)
Definition mutate (op : operation) (data : BillingRecord) (today : Z)
    : M BillingRecord :=
  w ← get_world;
  let prev := match op with OpCreate => None | _ => records w !! rec_id data end in
  let doc := BillingBefore.beforeChange op data (size (records w)) today in
  attempt CWriteRecord
    (fun w => (Ok tt, w_records w (<[rec_id doc := doc]> (records w)))) ;;
  afterChange op prev doc today ;;
  ret doc.

(** A delete of the billing record [id]. *)
Definition delete (id : string) : M unit :=
  w ← get_world;
  match records w !! id with
  | None => throw "NotFound"
  | Some doc =>
      attempt CWriteRecord
        (fun w => (Ok tt, w_records w (base.delete id (records w)))) ;;
      afterDelete doc
  end.

End Effects.

(* ------------------------------------------------------------------ *)
(** ** commercial-accounts: beforeChange *)

Module Commercial.

(** The part of [data] the hook reads: the [billingInfo] and
    [paymentInfo] groups (absent groups are [None]) and
    [serviceInfo.serviceStartDate]. *)
Record AccountData := mkAccountData {
  data_billingInfo : option BillingInfo;
  data_paymentInfo : option PaymentInfo;
  data_serviceStartDate : option Z;
}.

Definition msPerWeek : Z := JSDate.msPerDay * 7.

(** The time value [nextBilling] of "Calculate next billing date", for a
    [billingDate] (day of month, 1..31) and a [cadence]. *)
Definition next_billing (cad : cadence) (billingDate : Z)
    (serviceStartDate : option Z) (today : Z) : Z :=
  match cad with
  | Weekly | BiWeekly =>
      let base := match serviceStartDate with Some s => s | None => today end in
      let weeksSinceStart := (today - base) / msPerWeek in
      let periodsSinceStart :=
        match cad with Weekly => weeksSinceStart | _ => weeksSinceStart / 2 end in
      let periodsToAdd :=
        match cad with Weekly => periodsSinceStart + 1
                  | _ => (periodsSinceStart + 1) * 2 end in
      JSDate.setDate base (JSDate.getDate base + periodsToAdd * 7)
  | _ =>
      let nb := JSDate.setDate today billingDate in
      if nb <? today then
        match cad with
        | Monthly => JSDate.setMonth nb (JSDate.getMonth nb + 1)
        | Quarterly => JSDate.setMonth nb (JSDate.getMonth nb + 3)
        | Annually => JSDate.setFullYear nb (JSDate.getFullYear nb + 1)
        | _ => nb
        end
      else nb
  end.

(** [billingInfo.nextBillingDate = `${year}-${month}-${day}`], read back
    as a date. *)
Definition nextBillingDate_of (cad : cadence) (billingDate : Z)
    (serviceStartDate : option Z) (today : Z) : Z :=
  JSDate.date_only (next_billing cad billingDate serviceStartDate today).

(** "Check if account is late based on billing date and balance":
    the new [paymentInfo] for the groups [bi] and [pi]. *)
Definition lateness_check (bi : BillingInfo) (pi : PaymentInfo) (today : Z)
    : PaymentInfo :=
  let bal := accountBalance bi in
  let gracePeriodDays := grace_or_default (gracePeriodDays pi) in
  match nextBillingDate bi with
  | Some due =>
      if 0 <? bal then
        let lateDate := JSDate.add_days due gracePeriodDays in
        let late := (lateDate <? today) && (0 <? bal)
                    && match lastPaymentDate pi with
                       | None => true | Some l => l <? due end in
        set_isLate pi (if late then Late else Current)
      else set_isLate pi Current
  | None => if bal <=? 0 then set_isLate pi Current else pi
  end.

(** The hook on the groups (the password-stripping part does not touch
    them). *)
Definition beforeChange (data : AccountData) (today : Z) : AccountData :=
  let bi1 :=
    match data_billingInfo data with
    | Some bi =>
        match billingInfo_billingDate bi, billingCadence bi with
        | Some bd, Some cad =>
            if bd =? 0 then Some bi
            else Some (set_nextBillingDate bi
                         (nextBillingDate_of cad bd (data_serviceStartDate data) today))
        | _, _ => Some bi
        end
    | None => None
    end in
  let pi1 :=
    match bi1, data_paymentInfo data with
    | Some bi, Some pi => Some (lateness_check bi pi today)
    | _, pi => pi
    end in
  mkAccountData bi1 pi1 (data_serviceStartDate data).

End Commercial.

(* ------------------------------------------------------------------ *)
(** ** invoices: beforeChange, invoice numbering *)

Module InvoiceNumber.

(** The query [invoiceNumber: { contains: boroughCode }] on one invoice. *)
Definition has_code (boroughCode : string) (invoiceNumber : option string) : bool :=
  match invoiceNumber with
  | Some s => JSString.contains s boroughCode
  | None => false
  end.

(** [inv.invoiceNumber && inv.invoiceNumber.startsWith(prefix)] *)
Definition has_prefix (prefix : string) (invoiceNumber : option string) : bool :=
  match invoiceNumber with
  | Some s => JSString.startsWith s prefix
  | None => false
  end.

(** [req.payload.find({ collection: 'invoices', where: { invoiceNumber:
    { contains: boroughCode } }, limit: 1000 })]: the first 1000 invoice
    numbers (in the store's order) that contain the code. *)
Definition find_contains (boroughCode : string) (invoiceNumbers : list (option string))
    : list (option string) :=
  List.firstn 1000 (List.filter (has_code boroughCode) invoiceNumbers).

(** The number generated for a customer whose borough has code
    [boroughCode], given the invoice numbers of the existing invoices. *)
Definition generate (boroughCode : string) (invoiceNumbers : list (option string))
    : string :=
  let prefix := append boroughCode "-" in
  let matching := List.filter (has_prefix prefix)
                         (find_contains boroughCode invoiceNumbers) in
  let nextNumber := S (List.length matching) in
  append boroughCode (append "-" (JSString.zeroPad6 nextNumber)).

End InvoiceNumber.

(* ------------------------------------------------------------------ *)
(** ** The event log of one account and its balance *)

Module Ledger.
Import Reconcile.

(** Billing-record mutations of one account, each carrying the document
    as written (after beforeChange). *)
Inductive event :=
  | ECreate (doc : BillingRecord)
  | EUpdate (doc : BillingRecord)
  | EDelete (id : string).

Record LState := mkLState {
  ls_account : Account;
  ls_records : gmap string BillingRecord;
}.

(** One reconciliation on the successful path (account found, every write
    persisted): afterChange for a create or update, afterDelete for a
    delete. An update or delete of an unknown record is not a mutation. *)
Definition step (today : Z) (s : LState) (e : event) : LState :=
  let acc := ls_account s in
  let recs := ls_records s in
  match e with
  | ECreate doc =>
      mkLState (account_after_change OpCreate None doc acc today)
               (<[rec_id doc := doc]> recs)
  | EUpdate doc =>
      match recs !! rec_id doc with
      | Some p => mkLState (account_after_change OpUpdate (Some p) doc acc today)
                           (<[rec_id doc := doc]> recs)
      | None => s
      end
  | EDelete id =>
      match recs !! id with
      | Some d => mkLState (account_after_delete d acc) (base.delete id recs)
      | None => s
      end
  end.

Fixpoint run (today : Z) (s : LState) (evs : list event) : LState :=
  match evs with
  | [] => s
  | e :: es => run today (step today s e) es
  end.

(** The records alone, replayed from the log. *)
Definition log_step (recs : gmap string BillingRecord) (e : event)
    : gmap string BillingRecord :=
  match e with
  | ECreate doc => <[rec_id doc := doc]> recs
  | EUpdate doc =>
      match recs !! rec_id doc with
      | Some _ => <[rec_id doc := doc]> recs
      | None => recs
      end
  | EDelete id => base.delete id recs
  end.

Definition log_records (evs : list event) : gmap string BillingRecord :=
  fold_left log_step evs ∅.

(** The contribution of a record: [+amount] while it exists, and
    [-paidAmount] while it is paid. *)
Definition contribution (r : BillingRecord) : Z :=
  amount r - (if is_paid (status r) then paidAmount r else 0).

Definition ledger (recs : gmap string BillingRecord) : Z :=
  map_fold (fun _ r acc => contribution r + acc) 0 recs.

Definition balance (s : LState) : Z := accountBalance (billingInfo (ls_account s)).

(** Event sequences of the amended invariant: records are created unpaid
    with a fresh id, a record that is paid after an update has a positive
    [paidAmount], a deleted record is not paid, and the ledger recomputed
    after the event is not negative. *)
Definition valid_event (s : LState) (e : event) : bool :=
  match e with
  | ECreate doc =>
      negb (is_paid (status doc))
      && match ls_records s !! rec_id doc with None => true | Some _ => false end
  | EUpdate doc =>
      match ls_records s !! rec_id doc with
      | Some _ => if is_paid (status doc) then 0 <? paidAmount doc else true
      | None => false
      end
  | EDelete id =>
      match ls_records s !! id with
      | Some d => negb (is_paid (status d))
      | None => false
      end
  end.

Fixpoint valid_run (today : Z) (s : LState) (evs : list event) : bool :=
  match evs with
  | [] => true
  | e :: es =>
      valid_event s e && (0 <=? ledger (ls_records (step today s e)))
      && valid_run today (step today s e) es
  end.

Definition init (acc : Account) : LState := mkLState acc ∅.

(** Paid records carry a positive [paidAmount]. *)
Definition paid_positive (recs : gmap string BillingRecord) : Prop :=
  map_Forall (fun _ r => is_paid (status r) = true -> 0 < paidAmount r) recs.

(** The invariant of valid runs: the balance is the ledger of the records. *)
Definition ledger_inv (s : LState) : Prop :=
  balance s = ledger (ls_records s) /\ paid_positive (ls_records s).

End Ledger.

(* ------------------------------------------------------------------ *)
(** ** JavaScript numbers *)

(** A JavaScript number is an IEEE-754 binary64 value: [spec_float] with
    53 bits of precision and exponent bound 1024, added and subtracted with
    rounding to nearest, ties to even. *)
Module Double.

Definition prec : Z := 53.
Definition emax : Z := 1024.

Definition number := spec_float.

(** [0] *)
Definition zero : number := S754_zero false.

(** The number nearest to an integer. *)
Definition of_Z (z : Z) : number := binary_normalize prec emax z 0 false.

(** [x + y], [x - y] *)
Definition add (x y : number) : number := SFadd prec emax x y.
Definition sub (x y : number) : number := SFsub prec emax x y.
(** [-x] *)
Definition opp (x : number) : number := SFopp x.

(** [x || d]: [0], [-0] and [NaN] (and a missing value) fall back to [d]. *)
Definition or_else (x d : number) : number :=
  match x with
  | S754_zero _ | S754_nan => d
  | _ => x
  end.

(** [x > 0] *)
Definition gt0 (x : number) : bool := SFltb zero x.

(** [x !== 0] *)
Definition neq0 (x : number) : bool := negb (SFeqb x zero).

(** [Math.max(0, x)] *)
Definition max0 (x : number) : number :=
  match x with
  | S754_nan => S754_nan
  | _ => if SFltb zero x then x else zero
  end.

End Double.

(* ------------------------------------------------------------------ *)
(** ** The account balance in JavaScript numbers *)

(** The balance arithmetic of afterChange (lines 80-148) and afterDelete
    with the amounts as the numbers the code adds and subtracts. The
    overdue block after line 148 leaves [billingInfo] alone, so the state
    keeps the balance and the records only. *)
Module DLedger.
Import Double.

(** The numeric fields of a billing record as stored. *)
Record DRecord := mkDRecord {
  d_id : string;
  d_status : option bstatus;
  d_amount : number;       (** [doc.amount] *)
  d_paidAmount : number;   (** [doc.paidAmount] *)
}.

Inductive devent :=
  | DCreate (doc : DRecord)
  | DUpdate (doc : DRecord)
  | DDelete (id : string).

Record DState := mkDState {
  d_balance : number;                  (** [billingInfo.accountBalance] *)
  d_records : gmap string DRecord;
}.

(** [doc.amount || 0], [doc.paidAmount || 0] *)
Definition amount_or0 (r : DRecord) : number := or_else (d_amount r) zero.
Definition paid_or0 (r : DRecord) : number := or_else (d_paidAmount r) zero.

(** [balanceChange] *)
Definition balance_change (op : operation) (prev : option DRecord)
    (doc : DRecord) : number :=
  match op, prev with
  | OpCreate, _ => amount_or0 doc
  | OpUpdate, Some p => sub (amount_or0 doc) (amount_or0 p)
  | OpUpdate, None => zero
  | OpDelete, _ => opp (amount_or0 doc)
  end.

(** [updateData.billingInfo.accountBalance] after the block "Handle
    payment status updates", from the stored balance [b]. *)
Definition balance_after_change (op : operation) (prev : option DRecord)
    (doc : DRecord) (b : number) : number :=
  let newBalance := add (or_else b zero) (balance_change op prev doc) in
  match op, prev with
  | OpUpdate, Some p =>
      let previousPaidAmount := paid_or0 p in
      let currentPaidAmount := paid_or0 doc in
      if is_paid (d_status doc) && negb (is_paid (d_status p)) then
        (* currentPaidAmount || doc.amount || 0 *)
        let pa := or_else (or_else currentPaidAmount (d_amount doc)) zero in
        if gt0 pa then max0 (sub newBalance pa) else newBalance
      else if is_paid (d_status p) && negb (is_paid (d_status doc)) then
        if gt0 previousPaidAmount then add newBalance previousPaidAmount
        else newBalance
      else if is_paid (d_status doc) && is_paid (d_status p) then
        let diff := sub currentPaidAmount previousPaidAmount in
        if neq0 diff then max0 (sub newBalance diff) else newBalance
      else newBalance
  | _, _ => newBalance
  end.

(** afterDelete: [currentBalance - billingAmount]. *)
Definition balance_after_delete (doc : DRecord) (b : number) : number :=
  sub (or_else b zero) (amount_or0 doc).

(** One reconciliation, as [Ledger.step]. *)
Definition step (s : DState) (e : devent) : DState :=
  let b := d_balance s in
  let recs := d_records s in
  match e with
  | DCreate doc =>
      mkDState (balance_after_change OpCreate None doc b) (<[d_id doc := doc]> recs)
  | DUpdate doc =>
      match recs !! d_id doc with
      | Some p => mkDState (balance_after_change OpUpdate (Some p) doc b)
                           (<[d_id doc := doc]> recs)
      | None => s
      end
  | DDelete id =>
      match recs !! id with
      | Some d => mkDState (balance_after_delete d b) (base.delete id recs)
      | None => s
      end
  end.

Fixpoint run (s : DState) (evs : list devent) : DState :=
  match evs with
  | [] => s
  | e :: es => run (step s e) es
  end.

(** An account whose balance is 0 and that has no records. *)
Definition init : DState := mkDState zero ∅.

(** A record, and an event, whose amounts are whole numbers. *)
Definition of_record (r : BillingRecord) : DRecord :=
  mkDRecord (rec_id r) (status r) (of_Z (amount r)) (of_Z (paidAmount r)).

Definition of_event (e : Ledger.event) : devent :=
  match e with
  | Ledger.ECreate doc => DCreate (of_record doc)
  | Ledger.EUpdate doc => DUpdate (of_record doc)
  | Ledger.EDelete id => DDelete id
  end.

(** The amounts of an event lie in [-B, B]. *)
Definition within (B : Z) (e : Ledger.event) : bool :=
  match e with
  | Ledger.ECreate doc | Ledger.EUpdate doc =>
      (Z.abs (amount doc) <=? B) && (Z.abs (paidAmount doc) <=? B)
  | Ledger.EDelete _ => true
  end.

(** The amounts of stored records lie in [-B, B]. *)
Definition recs_within (B : Z) (m : gmap string BillingRecord) : Prop :=
  map_Forall (fun _ r => Z.abs (amount r) <= B /\ Z.abs (paidAmount r) <= B) m.

(** The state of a [Ledger] state with whole-number amounts. *)
Definition of_state (s : Ledger.LState) : DState :=
  mkDState (of_Z (Ledger.balance s)) (of_record <$> Ledger.ls_records s).

End DLedger.

(* ------------------------------------------------------------------ *)
(** ** Frame conditions of effectful code *)

Module Frame.
Import Effects.

(** [m] writes no account and never calls [updateAccount]; the calls it
    makes are appended to the trace. *)
Definition quiet {A} (m : M A) : Prop :=
  forall w, accounts (snd (m w)) = accounts w
    /\ exists l, trace (snd (m w)) = trace w ++ l
         /\ forall b, ~ In (CUpdateAccount, b) l.

(** [m] never fails. *)
Definition safe (m : M unit) : Prop := forall w, fst (m w) = Ok tt.

(** The first call [m] makes is a successful [c]. *)
Definition starts {A} (c : call) (m : M A) : Prop :=
  forall w, exists l, trace (snd (m w)) = trace w ++ (c, true) :: l.

Definition is_ok {A} (r : result A) : bool := match r with Ok _ => true | Err _ => false end.

(** Whether a run recorded an invocation of createStripeInvoice. *)
Definition invoiced (w : World) : bool :=
  existsb (fun p => call_eqb (fst p) CCreateStripeInvoice) (trace w).

End Frame.

(* ------------------------------------------------------------------ *)
(** ** Sample data *)

Module Samples.
Import Effects.

Definition pi0 : PaymentInfo := mkPaymentInfo None None (Some Current) (Some 5) 0.
Definition bi0 (bal : Z) : BillingInfo := mkBillingInfo (Some 15) (Some Monthly) None bal.
Definition acc_with (bal : Z) : Account :=
  mkAccount "ACC-000001" (Some "resident@example.com") (Some "cus_1") None (bi0 bal) pi0.
Definition acc0 : Account := acc_with 0.

(** A record of account ["a1"] billed on 2024-03-15. *)
Definition rec (id : string) (amt : Z) (st : option bstatus) (paid : Z) : BillingRecord :=
  mkBillingRecord id (Some "a1") None amt (Some (JSDate.ymd 2024 3 15)) None st None paid None.

Definition world_with (acc : Account) (fl : list call) : World :=
  mkWorld {[ "a1" := acc ]} ∅ fl true true [] [] [].

Definition noon (y m d : Z) : Z := JSDate.ymd y m d + 43200000.

(** Scenario A: amount 75, billed on 2024-03-15, no due date. *)
Definition rec_A : BillingRecord := rec "r1" 75 (Some Pending) 0.

(** The same create delivered twice to afterChange. *)
Definition replayed_create : M unit :=
  afterChange OpCreate None rec_A (noon 2024 3 15) ;;
  afterChange OpCreate None rec_A (noon 2024 3 15).

(** Create, pay in full, delete. *)
Definition paid_then_deleted : list Ledger.event :=
  [Ledger.ECreate (rec "r1" 75 (Some Pending) 0);
   Ledger.EUpdate (rec "r1" 75 (Some Paid) 75);
   Ledger.EDelete "r1"].

(** Create two records, pay the first. *)
Definition two_records : list Ledger.event :=
  [Ledger.ECreate (rec "r1" 75 (Some Pending) 0);
   Ledger.EUpdate (rec "r1" 75 (Some Paid) 75);
   Ledger.ECreate (rec "r2" 40 (Some Pending) 0)].

Definition sample_invoices : list (option string) :=
  [Some "BK-000001"; Some "QN-000001"; Some "xbk-000007"; None; Some "BK-000002"].

(** Invoice numbers BK-000001 .. BK-001001. *)
Definition bk_invoices : list (option string) :=
  List.map (fun i => Some (append "BK-" (JSString.zeroPad6 i))) (List.seq 1 1001).

End Samples.

(* ------------------------------------------------------------------ *)
(** ** Stripe helpers of the billing hooks *)

Module StripeHelpers.

(** [calculateDaysUntilDue(dueDate)] with [today] the time of
    [new Date()]: both dates are set to midnight, and the difference is
    rounded up ([Math.ceil]) to whole days and clamped at 0. *)
Definition calculateDaysUntilDue (dueDate today : Z) : Z :=
  let due := JSDate.setHours0 dueDate in
  let today0 := JSDate.setHours0 today in
  let diffTime := due - today0 in
  (* Math.ceil(diffTime / 86400000) *)
  let diffDays := - ((- diffTime) / JSDate.msPerDay) in
  Z.max 0 diffDays.

End StripeHelpers.

(* ------------------------------------------------------------------ *)
(** ** services/email.ts: the billing helpers built on the collection *)

Module Callers.
Import Effects.

(** The document [payload.update] saves for the data
    [{ status: 'paid', paidDate, paidAmount }]: the stored record with
    these three fields replaced. *)
Definition set_paid (r : BillingRecord) (d p : Z) : BillingRecord :=
  mkBillingRecord (rec_id r) (account r) (billingNumber r) (amount r)
    (billingDate r) (dueDate r) (Some Paid) (Some d) p (stripeInvoiceId r).

(** [markBillingAsPaid(billingId, paidAmount, paidDate?)]: an update of
    the stored record; [paidDate] defaults to today's ISO date. An unknown
    id makes [payload.update] throw; errors are logged and rethrown. *)
Definition markBillingAsPaid (billingId : string) (paidAmount : Z)
    (paidDate : option Z) (today : Z) : M BillingRecord :=
  try_catch
    (w ← get_world;
     match records w !! billingId with
     | None => throw "NotFound"
     | Some r =>
         mutate OpUpdate
           (set_paid r (match paidDate with
                        | Some d => d
                        | None => JSDate.date_only today end) paidAmount) today
     end)
    (fun e => console "Error updating billing record:" ;; throw e).

(** The e-mails [sendInvoiceEmail] sends from the state [w], with the
    payment link [link]. *)
Definition mailed (acc : Account) (w : World) (link : option string)
    : list (string * option string) :=
  match email acc with
  | Some addr =>
      if smtp_configured w && negb (fails w CSendInvoiceEmail)
      then [(addr, link)] else []
  | None => []
  end.

(** [m] sends no e-mail and keeps the failure and SMTP configuration. *)
Definition mail_quiet {A} (m : M A) : Prop :=
  forall w, outbox (snd (m w)) = outbox w
    /\ failing (snd (m w)) = failing w
    /\ smtp_configured (snd (m w)) = smtp_configured w.

(** [m] keeps the failure and SMTP configuration, and either succeeds
    having sent the e-mail of [acc] once (as [mailed] says), or fails
    having sent none. *)
Definition once_or_fails (acc : Account) (m : M unit) : Prop :=
  forall w, failing (snd (m w)) = failing w
    /\ smtp_configured (snd (m w)) = smtp_configured w
    /\ ((fst (m w) = Ok tt
         /\ exists link, outbox (snd (m w)) = outbox w ++ mailed acc w link)
        \/ ((exists e, fst (m w) = Err e) /\ outbox (snd (m w)) = outbox w)).

End Callers.

(* ------------------------------------------------------------------ *)
(** ** invoices: the numbering hooks with their lookups *)

Module Invoices.
Import Effects.

(** JavaScript truthiness of a string. *)
Definition truthy (s : string) : bool :=
  match s with EmptyString => false | String _ _ => true end.
Definition opt_truthy (o : option string) : bool :=
  match o with Some s => truthy s | None => false end.

(** [a === b] on optional strings ([undefined] is [None]). *)
Definition opt_eqb (a b : option string) : bool :=
  match a, b with
  | Some x, Some y => String.eqb x y
  | None, None => true
  | _, _ => false
  end.

(** A relationship value: an id, or a populated document with its [id]
    and [_id] fields. *)
Inductive ref :=
  | RefId (s : string)
  | RefDoc (id : option string) (mongo_id : option string).

Definition ref_truthy (r : ref) : bool :=
  match r with RefId s => truthy s | RefDoc _ _ => true end.

(** [typeof r === 'string' ? r : r.id || r._id] *)
Definition ref_id (r : ref) : option string :=
  match r with
  | RefId s => Some s
  | RefDoc id mid => if opt_truthy id then id else mid
  end.

(** The fields of an invoice the hooks read and write. *)
Record InvoiceData := mkInvoiceData {
  customer : option ref;
  invoiceNumber : option string;
}.

Definition set_invoiceNumber (d : InvoiceData) (n : string) : InvoiceData :=
  mkInvoiceData (customer d) (Some n).

(** What the lookups see: the [borough] field of each account, the
    [code] of each borough, the invoice numbers of the stored invoices,
    and whether the [find] and [count] queries on invoices throw. A
    [findByID] of a missing id throws. *)
Record IStore := mkIStore {
  account_borough : gmap string (option ref);
  borough_code : gmap string (option string);
  invoice_numbers : list (option string);
  find_fails : bool;
  count_fails : bool;
}.

(** The lookup chain shared by both hooks, from the customer id: the
    generated number, [None] when the account has no borough or the
    borough no code, [Err] when a lookup throws. *)
Definition number_for (st : IStore) (customerId : string) : result (option string) :=
  match account_borough st !! customerId with
  | None => Err "NotFound"
  | Some (Some b) =>
      if ref_truthy b then
        match ref_id b with
        | Some boroughId =>
            if truthy boroughId then
              match borough_code st !! boroughId with
              | None => Err "NotFound"
              | Some (Some boroughCode) =>
                  if truthy boroughCode then
                    if find_fails st then Err "find failed"
                    else Ok (Some (InvoiceNumber.generate boroughCode (invoice_numbers st)))
                  else Ok None
              | Some None => Ok None
              end
            else Ok None
        | None => Ok None
        end
      else Ok None
  | Some None => Ok None
  end.

(** [customerChanged] *)
Definition customer_changed (originalDoc : option InvoiceData)
    (customerId : option string) : bool :=
  match originalDoc with
  | Some o =>
      match customer o with
      | Some (RefId s) => truthy s && negb (opt_eqb (Some s) customerId)
      | Some (RefDoc id _) => negb (opt_eqb id customerId)
      | None => false
      end
  | None => false
  end.

(** The collection's beforeChange hook (its console output is not
    modelled). *)
Definition beforeChange (st : IStore) (data : InvoiceData)
    (originalDoc : option InvoiceData) : result InvoiceData :=
  match customer data with
  | Some c =>
      if ref_truthy c then
        let customerId := ref_id c in
        let shouldGenerate :=
          (negb (opt_truthy (invoiceNumber data))
           || customer_changed originalDoc customerId)
          && opt_truthy customerId in
        match customerId with
        | Some cid =>
            if shouldGenerate then
              match number_for st cid with
              | Ok (Some n) => Ok (set_invoiceNumber data n)
              | Ok None => Ok data
              | Err _ =>
                  (* the fallback of the catch block *)
                  if opt_truthy (invoiceNumber data) then Ok data
                  else if count_fails st then Err "count failed"
                  else Ok (set_invoiceNumber data
                             (append "INV-" (JSString.zeroPad6
                                (S (List.length (invoice_numbers st))))))
              end
            else Ok data
        | None => Ok data
        end
      else Ok data
  | None => Ok data
  end.

(** The beforeChange hook of the [customer] field: it returns [value]
    and leaves [data] as the second component. Errors are caught. *)
Definition customer_beforeChange (st : IStore) (value : option ref)
    (data : InvoiceData) : option ref * InvoiceData :=
  (value,
   match value with
   | Some r =>
       if ref_truthy r then
         match ref_id r with
         | Some customerId =>
             if truthy customerId then
               match number_for st customerId with
               | Ok (Some n) => set_invoiceNumber data n
               | _ => data
               end
             else data
         | None => data
         end
       else data
   | None => data
   end).

End Invoices.

(* ------------------------------------------------------------------ *)
(** ** More sample data *)

Module MoreSamples.
Import Effects Samples Invoices.

(** Account ["acct1"] is in borough ["bor1"] of code ["BK"]; account
    ["acct2"] has no borough. *)
Definition inv_store : IStore :=
  mkIStore {[ "acct1" := Some (RefId "bor1"); "acct2" := None ]}
    {[ "bor1" := Some "BK" ]} sample_invoices false false.

(** A store in which every account lookup throws. *)
Definition inv_store_down : IStore := mkIStore ∅ ∅ sample_invoices false false.

Definition new_invoice : InvoiceData := mkInvoiceData (Some (RefId "acct1")) None.
Definition numbered_invoice : InvoiceData :=
  mkInvoiceData (Some (RefId "acct1")) (Some "BK-000001").

(** Account ["a1"] of balance 100 with the pending record ["r1"] of 75. *)
Definition pending_world : World :=
  w_records (world_with (acc_with 100) []) {[ "r1" := rec "r1" 75 (Some Pending) 0 ]}.

(** The doubles nearest to 0.1 and 0.2, and the double after 0.2
    (0.20000000000000004). *)
Definition tenth : Double.number := S754_finite false 7205759403792794 (-56).
Definition fifth : Double.number := S754_finite false 7205759403792794 (-55).
Definition fifth_plus_ulp : Double.number := S754_finite false 7205759403792795 (-55).

Definition rec_tenth : DLedger.DRecord := DLedger.mkDRecord "r1" (Some Pending) tenth Double.zero.
Definition rec_fifth : DLedger.DRecord := DLedger.mkDRecord "r2" (Some Pending) fifth Double.zero.

(** Create 0.1, create 0.2, delete the first. *)
Definition tenth_then_fifth : list DLedger.devent :=
  [DLedger.DCreate rec_tenth; DLedger.DCreate rec_fifth; DLedger.DDelete "r1"].

End MoreSamples.


(* ------------------------------------------------------------------ *)
(** ** Checks of the model on concrete values *)

Example iso_date_ex : JSString.iso_date (JSDate.ymd 2024 4 14) = "2024-04-14".
Proof. vm_compute. reflexivity. Qed.

Example setDate_overflow_ex :
  JSDate.setDate (JSDate.ymd 2024 4 10) 31 = JSDate.ymd 2024 5 1.
Proof. vm_compute. reflexivity. Qed.

Example zeroPad6_ex : JSString.zeroPad6 42 = "000042".
Proof. vm_compute. reflexivity. Qed.

(* ------------------------------------------------------------------ *)
(** ** Proofs *)

Import Reconcile Ledger Effects Samples Frame MoreSamples.



Ltac unfold_monad :=
  unfold mbind, M_bind, bind, mret, M_ret, ret, try_catch, attempt, get_world,
    put_world, console, invoke, throw, fails in *.


(** C10: deleting a billing record whose account reference names an
    existing account sets that account's [accountBalance] to its previous
    value minus the record's amount, whatever the record's status, with no
    clamping at zero, and leaves every other field of the account
    (paymentInfo with the lateness status included) unchanged. *)
Theorem afterDelete_subtracts_amount (doc : BillingRecord) (aid : string)
  (acc : Account) (w : World)
  (Hacc : account doc = Some aid) (Hfound : accounts w !! aid = Some acc)
  (Hfind : fails w CFindAccount = false) (Hupd : fails w CUpdateAccount = false) :
  fst (afterDelete doc w) = Ok tt
  /\ accounts (snd (afterDelete doc w))
     = <[aid := mkAccount (accountNumber acc) (email acc) (stripeCustomerId acc)
                 (serviceStartDate acc)
                 (mkBillingInfo (billingInfo_billingDate (billingInfo acc))
                    (billingCadence (billingInfo acc))
                    (nextBillingDate (billingInfo acc))
                    (accountBalance (billingInfo acc) - amount doc))
                 (paymentInfo acc)]> (accounts w).
Proof.
  unfold afterDelete, findAccount, updateAccount. rewrite Hacc.
  unfold_monad. cbn. rewrite Hfind. cbn. rewrite Hfound. cbn.
  rewrite Hupd. cbn. rewrite Hfound. cbn. split; reflexivity.
Qed.

Lemma beforeChange_rec_id op data n today :
  rec_id (BillingBefore.beforeChange op data n today) = rec_id data.
Proof.
  unfold BillingBefore.beforeChange.
  destruct op, (billingNumber data), (billingDate _), (dueDate _); cbn;
  repeat case_match; reflexivity.
Qed.

Lemma afterChange_update_fails op prev doc today (w : World) k
  (Hupd : fails w CUpdateAccount = true) (Hk : is_Some (records w !! k)) :
  fst (afterChange op prev doc today w) = Ok tt
  /\ accounts (snd (afterChange op prev doc today w)) = accounts w
  /\ is_Some (records (snd (afterChange op prev doc today w)) !! k).
Proof.
  unfold afterChange. destruct (account doc) as [aid|]; [|cbn; auto].
  unfold findAccount, updateAccount, updateRecord. unfold_monad.
  cbn -[plan notify].
  destruct (existsb (call_eqb CFindAccount) (failing w)); cbn -[plan notify]; [auto|].
  destruct (accounts w !! aid) as [acc|]; cbn -[plan notify]; [|auto].
  destruct (plan op prev doc acc today) as [ud wo]. cbn -[notify].
  destruct wo; cbn -[notify].
  - destruct (existsb (call_eqb CUpdateRecord) (failing w)); cbn -[notify]; [auto|].
    destruct (records w !! rec_id doc) eqn:Er; cbn -[notify]; [|auto].
    rewrite Hupd. cbn. split; [reflexivity|]. split; [reflexivity|].
    destruct (decide (rec_id doc = k)) as [->|Hne].
    + rewrite lookup_insert_eq. eauto.
    + rewrite lookup_insert_ne by done. exact Hk.
  - rewrite Hupd. cbn. auto.
Qed.


(** C2 (amended): when the account write fails, afterChange and
    afterDelete catch the error and log it. The mutation still succeeds:
    a create or update returns the saved document and keeps the record in
    the store, and a delete still removes it. The account is left
    unchanged, so a saved record can coexist with an account that was not
    reconciled. *)
Theorem account_write_failure_is_swallowed (w : World)
  (Hwrite : fails w CWriteRecord = false) (Hupd : fails w CUpdateAccount = true) :
  (forall op data today, op <> OpDelete ->
     fst (mutate op data today w)
       = Ok (BillingBefore.beforeChange op data (size (records w)) today)
     /\ accounts (snd (mutate op data today w)) = accounts w
     /\ is_Some (records (snd (mutate op data today w)) !! rec_id data))
  /\ (forall id d, records w !! id = Some d ->
     fst (delete id w) = Ok tt
     /\ accounts (snd (delete id w)) = accounts w
     /\ records (snd (delete id w)) !! id = None).
Proof.
  split.
  - intros op data today _.
    unfold mutate. unfold_monad.
    cbn -[afterChange BillingBefore.beforeChange]. rewrite Hwrite.
    cbn -[afterChange BillingBefore.beforeChange].
    set (doc := BillingBefore.beforeChange op data (size (records w)) today).
    set (prev := match op with OpCreate => None | _ => records w !! rec_id data end).
    set (w1 := w_records (w_trace w CWriteRecord true) (<[rec_id doc:=doc]> (records w))).
    destruct (afterChange_update_fails op prev doc today w1 (rec_id doc)) as (H1 & H2 & H3).
    { exact Hupd. }
    { cbn. rewrite lookup_insert_eq. eauto. }
    destruct (afterChange op prev doc today w1) as [r w2]. cbn in H1, H2, H3 |- *.
    subst r. cbn. split; [reflexivity|]. split; [exact H2|].
    unfold doc in H3. rewrite beforeChange_rec_id in H3. exact H3.
  - intros id d Hd. unfold delete, afterDelete, findAccount, updateAccount.
    unfold_monad. cbn. rewrite Hd. cbn. rewrite Hwrite. cbn.
    destruct (account d) as [aid|]; cbn.
    + destruct (existsb (call_eqb CFindAccount) (failing w)); cbn.
      * split; [reflexivity|]. split; [reflexivity|]. apply lookup_delete_eq.
      * destruct (accounts w !! aid); cbn; [rewrite Hupd; cbn|];
        (split; [reflexivity|]; split; [reflexivity|]; apply lookup_delete_eq).
    + split; [reflexivity|]. split; [reflexivity|]. apply lookup_delete_eq.
Qed.

Lemma quiet_ret {A} (a : A) : quiet (mret a).
Proof. intros w. split; [reflexivity|]. exists []. rewrite app_nil_r. split; [reflexivity|]. intros b []. Qed.

Lemma quiet_bind {A B} (m : M A) (k : A -> M B) :
  quiet m -> (forall a, quiet (k a)) -> quiet (m ≫= k).
Proof.
  intros Hm Hk w. unfold mbind, M_bind, bind.
  destruct (Hm w) as (Ha & l1 & Ht1 & Hn1).
  destruct (m w) as [[a|e] w1]; cbn in *.
  - destruct (Hk a w1) as (Ha2 & l2 & Ht2 & Hn2).
    split; [congruence|]. exists (l1 ++ l2). rewrite Ht2, Ht1, app_assoc.
    split; [reflexivity|]. intros b Hb%in_app_or. destruct Hb; [eapply Hn1|eapply Hn2]; eauto.
  - split; [exact Ha|]. exists l1. auto.
Qed.

Lemma quiet_try_catch {A} (m : M A) (h : string -> M A) :
  quiet m -> (forall e, quiet (h e)) -> quiet (try_catch m h).
Proof.
  intros Hm Hh w. unfold try_catch.
  destruct (Hm w) as (Ha & l1 & Ht1 & Hn1).
  destruct (m w) as [[a|e] w1]; cbn in *.
  - split; [exact Ha|]. exists l1. auto.
  - destruct (Hh e w1) as (Ha2 & l2 & Ht2 & Hn2).
    split; [congruence|]. exists (l1 ++ l2). rewrite Ht2, Ht1, app_assoc.
    split; [reflexivity|]. intros b Hb%in_app_or. destruct Hb; [eapply Hn1|eapply Hn2]; eauto.
Qed.

Lemma quiet_console s : quiet (console s).
Proof. intros w. split; [reflexivity|]. exists []. rewrite app_nil_r. split; [reflexivity|]. intros b []. Qed.

Lemma quiet_throw {A} e : quiet (A:=A) (throw e).
Proof. intros w. split; [reflexivity|]. exists []. rewrite app_nil_r. split; [reflexivity|]. intros b []. Qed.

Lemma quiet_get_world : quiet get_world.
Proof. intros w. split; [reflexivity|]. exists []. rewrite app_nil_r. split; [reflexivity|]. intros b []. Qed.

Lemma quiet_trace_step {A} c ok (k : M A) :
  c <> CUpdateAccount -> quiet k -> quiet (fun w => k (w_trace w c ok)).
Proof.
  intros Hc Hk w. destruct (Hk (w_trace w c ok)) as (Ha & l & Ht & Hn).
  split; [exact Ha|]. exists ((c, ok) :: l). rewrite Ht. cbn. rewrite <- app_assoc.
  split; [reflexivity|]. intros b [[= ->]|Hb]; [done|]. eapply Hn; eauto.
Qed.

Lemma quiet_log_step {A} s (k : M A) : quiet k -> quiet (fun w => k (w_log w s)).
Proof.
  intros Hk w. destruct (Hk (w_log w s)) as (Ha & l & Ht & Hn).
  split; [exact Ha|]. exists l. split; [exact Ht|exact Hn].
Qed.

Lemma quiet_attempt {A} c (k : M A) :
  c <> CUpdateAccount -> quiet k -> quiet (attempt c k).
Proof.
  intros Hc Hk w. unfold attempt. destruct (fails w c).
  - split; [reflexivity|]. exists [(c, false)]. split; [reflexivity|].
    intros b [[= ->]|[]]. done.
  - exact (quiet_trace_step c true k Hc Hk w).
Qed.

Lemma quiet_invoke c : c <> CUpdateAccount -> quiet (invoke c).
Proof.
  intros Hc w. split; [reflexivity|]. exists [(c, true)]. split; [reflexivity|].
  intros b [[= ->]|[]]. done.
Qed.

Lemma quiet_updateRecord id f : quiet (updateRecord id f).
Proof.
  apply quiet_attempt; [done|]. intros w. unfold_monad. cbn.
  destruct (records w !! id); cbn;
    (split; [reflexivity|]; exists []; rewrite app_nil_r; split; [reflexivity|]; intros ? []).
Qed.

Lemma quiet_sendInvoiceEmail acc doc i p : quiet (sendInvoiceEmail acc doc i p).
Proof.
  unfold sendInvoiceEmail. destruct (email acc) as [addr|]; [|apply quiet_console].
  apply quiet_bind; [apply quiet_get_world|]. intros w.
  destruct (smtp_configured w); cbn; [|apply quiet_console].
  apply quiet_try_catch; [|intros; apply quiet_console].
  apply quiet_attempt; [done|]. intros w'.
  split; [reflexivity|]. exists []. rewrite app_nil_r. split; [reflexivity|]. intros b [].
Qed.

Ltac solve_quiet :=
  repeat first
    [ apply quiet_try_catch | apply quiet_bind | apply quiet_console | apply quiet_throw
    | apply quiet_get_world | apply quiet_sendInvoiceEmail | apply quiet_updateRecord
    | apply quiet_log_step
    | apply quiet_invoke; done | apply quiet_attempt; [done|] | apply quiet_ret
    | match goal with
      | |- quiet (if ?b then _ else _) => destruct b
      | |- quiet (match ?x with _ => _ end) => destruct x
      | |- forall _ : _, quiet _ => intros ?
      end ].

Lemma quiet_notify acc doc : quiet (notify acc doc).
Proof. unfold notify, createStripeInvoice, getInvoicePaymentLink. solve_quiet. Qed.

Lemma starts_invoke_bind {A} c (k : unit -> M A) :
  (forall a, quiet (k a)) -> starts c (invoke c ≫= k).
Proof.
  intros Hk w. unfold mbind, M_bind, bind, invoke. cbn.
  destruct (Hk tt (w_trace w c true)) as (_ & l & Ht & _).
  exists l. rewrite Ht. cbn. rewrite <- app_assoc. reflexivity.
Qed.

Lemma starts_bind {A B} c (m : M A) (k : A -> M B) :
  starts c m -> (forall a, quiet (k a)) -> starts c (m ≫= k).
Proof.
  intros Hm Hk w. unfold mbind, M_bind, bind.
  destruct (Hm w) as (l & Ht).
  destruct (m w) as [[a|e] w1]; cbn in *.
  - destruct (Hk a w1) as (_ & l2 & Ht2 & _). exists (l ++ l2).
    rewrite Ht2, Ht. rewrite <- app_assoc. reflexivity.
  - exists l. exact Ht.
Qed.

Lemma starts_try_catch {A} c (m : M A) h :
  starts c m -> (forall e, quiet (h e)) -> starts c (try_catch m h).
Proof.
  intros Hm Hh w. unfold try_catch.
  destruct (Hm w) as (l & Ht).
  destruct (m w) as [[a|e] w1]; cbn in *.
  - exists l. exact Ht.
  - destruct (Hh e w1) as (_ & l2 & Ht2 & _). exists (l ++ l2).
    rewrite Ht2, Ht. rewrite <- app_assoc. reflexivity.
Qed.

Lemma starts_notify acc doc : starts CCreateStripeInvoice (notify acc doc).
Proof.
  unfold notify, createStripeInvoice, getInvoicePaymentLink.
  apply starts_try_catch; [apply starts_bind; [apply starts_invoke_bind|]|]; solve_quiet.
Qed.

Lemma safe_sendInvoiceEmail acc doc i p : safe (sendInvoiceEmail acc doc i p).
Proof.
  intros w. unfold sendInvoiceEmail. destruct (email acc); [|reflexivity].
  unfold_monad. cbn. destruct (smtp_configured w); cbn; [|reflexivity].
  destruct (existsb _ _); reflexivity.
Qed.

Lemma safe_notify acc doc : safe (notify acc doc).
Proof.
  intros w. unfold notify at 1. unfold try_catch at 1.
  match goal with |- fst (match ?m w with _ => _ end) = _ =>
    destruct (m w) as [[[]|e] w1] end; [reflexivity|].
  unfold console, mbind, M_bind, bind, try_catch. cbn.
  pose proof (safe_sendInvoiceEmail acc doc None None (w_log w1 "Error creating Stripe invoice or sending email:")) as H.
  destruct (sendInvoiceEmail acc doc None None (w_log w1 _)) as [[[]|e'] w2]; cbn in *; [reflexivity|].
  reflexivity.
Qed.



Ltac concrete_in :=
  cbn; repeat split; intros; repeat match goal with
  | H : _ /\ _ |- _ => destruct H
  | H : _ \/ _ |- _ => destruct H
  | H : (_, _) = (_, _) |- _ => inversion H; clear H
  | H : False |- _ => destruct H
  end; try discriminate; try congruence.

Ltac finish_update aid acc Eacc Eplan :=
  destruct (existsb (call_eqb CUpdateAccount) (failing _)); cbn -[notify plan];
  [ split; [reflexivity|]; eexists; split; [cbn; rewrite <- ?app_assoc; reflexivity|]; concrete_in
  | rewrite Eacc; destruct (notifies _ _) eqn:En; cbn -[notify plan];
    [ match goal with |- context [notify ?a ?d ?W] =>
          let N2 := fresh "N" in let N1 := fresh "N" in let N5 := fresh "N" in
          let l' := fresh "l" in let l'' := fresh "l" in
          pose proof (quiet_notify a d W) as (N2 & l' & _ & _);
          pose proof (safe_notify a d W) as N1;
          pose proof (starts_notify a d W) as [l'' N5];
          destruct (notify a d W) as [rn wn];
          cbn in N1, N2, N5 |- *; subst rn;
          split; [reflexivity|];
          eexists; split; [cbn; rewrite N5; cbn; rewrite <- !app_assoc; reflexivity|];
          split; [split; intros; [split; [reflexivity|]; apply in_app_iff; cbn; tauto
                                 | rewrite !in_app_iff; cbn; tauto]|];
          intros _; exists aid, acc; cbn; rewrite N2, Eplan; auto
      end
    | split; [reflexivity|]; eexists; split; [cbn; rewrite <- ?app_assoc; reflexivity|];
      split; [concrete_in|]; intros _; exists aid, acc; rewrite Eplan; auto ] ].


(** afterChange never fails. A successful account write leaves the
    account equal to [account_after_change]. The notification starts
    exactly when it is due and the account write has succeeded. *)
Lemma afterChange_spec op prev doc today (w : World) :
  fst (afterChange op prev doc today w) = Ok tt
  /\ exists l, trace (snd (afterChange op prev doc today w)) = trace w ++ l
     /\ (In (CCreateStripeInvoice, true) l
           <-> notifies op doc = true /\ In (CUpdateAccount, true) l)
     /\ (In (CUpdateAccount, true) l ->
           exists aid acc, account doc = Some aid /\ accounts w !! aid = Some acc
           /\ accounts (snd (afterChange op prev doc today w))
              = <[aid := account_after_change op prev doc acc today]> (accounts w)).
Proof.
  unfold afterChange. destruct (account doc) as [aid|] eqn:Eaid.
  2:{ cbn. split; [reflexivity|]. exists []. rewrite app_nil_r.
      split; [reflexivity|]. concrete_in. }
  unfold findAccount, updateAccount, updateRecord. unfold_monad.
  cbn -[plan notify].
  destruct (existsb (call_eqb CFindAccount) (failing w)); cbn -[plan notify].
  { split; [reflexivity|]. eexists; split; [cbn; rewrite <- ?app_assoc; reflexivity|]. concrete_in. }
  destruct (accounts w !! aid) as [acc|] eqn:Eacc; cbn -[plan notify].
  2:{ split; [reflexivity|]. eexists; split; [cbn; rewrite <- ?app_assoc; reflexivity|]. concrete_in. }
  unfold account_after_change.
  destruct (plan op prev doc acc today) as [ud wo] eqn:Eplan. cbn -[notify plan].
  destruct wo; cbn -[notify plan].
  - destruct (existsb (call_eqb CUpdateRecord) (failing w)); cbn -[notify plan].
    { split; [reflexivity|]. eexists; split; [cbn; rewrite <- ?app_assoc; reflexivity|]. concrete_in. }
    destruct (records w !! rec_id doc); cbn -[notify plan].
    2:{ split; [reflexivity|]. eexists; split; [cbn; rewrite <- ?app_assoc; reflexivity|]. concrete_in. }
    finish_update aid acc Eacc Eplan.
  - finish_update aid acc Eacc Eplan.
Qed.


(** C8 (amended): a create or update whose record write succeeds returns
    the saved document, whatever fails afterwards. The notification (the
    call of createStripeInvoice) is started exactly when the mutation is a
    create whose status is not [cancelled] AND the account write has
    succeeded. A successful account write is kept: failures in the
    notification path neither propagate nor roll the account back. *)
Theorem notification_follows_account_write (op : operation) (data : BillingRecord)
  (today : Z) (w : World) (Hw : fails w CWriteRecord = false) :
  let prev := match op with OpCreate => None | _ => records w !! rec_id data end in
  let doc := BillingBefore.beforeChange op data (size (records w)) today in
  fst (mutate op data today w) = Ok doc
  /\ exists l, trace (snd (mutate op data today w)) = trace w ++ (CWriteRecord, true) :: l
     /\ (In (CCreateStripeInvoice, true) l
           <-> notifies op doc = true /\ In (CUpdateAccount, true) l)
     /\ (In (CUpdateAccount, true) l ->
           exists aid acc, account doc = Some aid /\ accounts w !! aid = Some acc
           /\ accounts (snd (mutate op data today w))
              = <[aid := account_after_change op prev doc acc today]> (accounts w)).
Proof.
  intros prev doc. unfold mutate. unfold_monad. cbn -[afterChange BillingBefore.beforeChange].
  rewrite Hw. cbn -[afterChange BillingBefore.beforeChange].
  match goal with |- context [afterChange ?o ?p ?d ?t ?W] =>
    pose proof (afterChange_spec o p d t W) as (H1 & l & H2 & H3 & H4);
    destruct (afterChange o p d t W) as [r w'] end.
  cbn in H1, H2, H3, H4 |- *. subst r. split; [reflexivity|].
  exists l. cbn [snd]. split; [rewrite H2, <- app_assoc; reflexivity|].
  split; [exact H3|]. exact H4.
Qed.


Lemma grace_pos (g : option Z) :
  (forall x, g = Some x -> 0 <= x) -> 1 <= grace_or_default g.
Proof.
  destruct g as [x|]; cbn; [|lia].
  intros H. specialize (H x eq_refl). unfold or_num.
  destruct (Z.eqb_spec x 0); lia.
Qed.

Lemma MakeDay_shift (y m d g : Z) :
  JSDate.MakeDay y m (d + g) = JSDate.MakeDay y m d + g.
Proof. unfold JSDate.MakeDay. lia. Qed.

Lemma add_days_shift (t g : Z) :
  JSDate.add_days t g = JSDate.add_days t 0 + g * JSDate.msPerDay.
Proof.
  unfold JSDate.add_days, JSDate.setDate.
  rewrite MakeDay_shift, Z.add_0_r. lia.
Qed.

Lemma add_days_ymd_2024_4_14 (g : Z) :
  JSDate.add_days (JSDate.ymd 2024 4 14) g = JSDate.ymd 2024 4 14 + g * JSDate.msPerDay.
Proof.
  rewrite add_days_shift. f_equal.
Qed.


(** C7: scenario A. Take a record of amount 75 billed on 2024-03-15 with
    no due date, created at a time between 2024-03-15 and 2024-04-14, on an
    account of balance 0 (with a non-negative grace period). Then the due
    date is 2024-04-14 (billing date + 30 days), the status stays
    [pending], the record is not marked overdue, and the balance becomes
    75. *)
Theorem scenario_A_create (today : Z) (acc : Account) (totalDocs : nat)
  (Htoday : JSDate.ymd 2024 3 15 <= today < JSDate.ymd 2024 4 15)
  (Hbal : accountBalance (billingInfo acc) = 0)
  (Hgrace : forall g, gracePeriodDays (paymentInfo acc) = Some g -> 0 <= g) :
  let doc := BillingBefore.beforeChange OpCreate rec_A totalDocs today in
  dueDate doc = Some (JSDate.ymd 2024 4 14)
  /\ JSString.iso_date (JSDate.ymd 2024 4 14) = "2024-04-14"
  /\ status doc = Some Pending
  /\ snd (plan OpCreate None doc acc today) = false
  /\ accountBalance (billingInfo (account_after_change OpCreate None doc acc today)) = 75.
Proof.
  assert (E15 : JSDate.ymd 2024 3 15 = 1710460800000) by reflexivity.
  assert (E414 : JSDate.ymd 2024 4 14 = 1713052800000) by reflexivity.
  assert (E415 : JSDate.ymd 2024 4 15 = 1713139200000) by reflexivity.
  assert (Hdue : JSDate.date_only (JSDate.add_days (JSDate.ymd 2024 3 15) 30)
                 = JSDate.ymd 2024 4 14) by reflexivity.
  assert (Hd0 : JSDate.setHours0 (JSDate.ymd 2024 4 14) = JSDate.ymd 2024 4 14)
    by reflexivity.
  rewrite E15, E415 in Htoday.
  assert (Hday : JSDate.setHours0 today <= JSDate.ymd 2024 4 14).
  { unfold JSDate.setHours0, JSDate.day_number, JSDate.msPerDay.
    assert (today / 86400000 < 19828).
    { apply Z.div_lt_upper_bound; lia. }
    rewrite E414. lia. }
  pose proof (grace_pos _ Hgrace) as Hg.
  cbn zeta.
  cbv beta iota zeta delta [BillingBefore.beforeChange rec_A rec set_billingNumber
    set_dueDate set_status billingNumber billingDate dueDate status is_paid
    is_cancelled unset_or_pending negb andb].
  rewrite Hdue, Hd0.
  destruct (Z.ltb_spec (JSDate.ymd 2024 4 14) (JSDate.setHours0 today)); [lia|].
  cbv beta iota delta [andb dueDate status].
  split; [reflexivity|]. split; [vm_compute; reflexivity|]. split; [reflexivity|].
  cbv beta iota zeta delta [account_after_change plan overdue_update dueDate status
    is_paid is_cancelled is_pending negb andb].
  rewrite add_days_ymd_2024_4_14.
  destruct (Z.ltb_spec (JSDate.ymd 2024 4 14 + grace_or_default (gracePeriodDays (paymentInfo acc)) * JSDate.msPerDay) today) as [Hlt|Hge].
  { exfalso. rewrite E414 in Hlt. unfold JSDate.msPerDay in Hlt. nia. }
  cbn. rewrite Hbal. split; reflexivity.
Qed.



Lemma overdue_update_billingInfo doc acc today ud :
  ud_billingInfo (fst (overdue_update doc acc today ud)) = ud_billingInfo ud.
Proof.
  unfold overdue_update. destruct (dueDate doc); [|reflexivity].
  destruct (_ && _); reflexivity.
Qed.

Lemma balance_after_change op prev doc acc today :
  accountBalance (billingInfo (account_after_change op prev doc acc today))
  = accountBalance (ud_billingInfo (payment_status_update op prev doc acc today
      (mkUpdateData (set_balance (billingInfo acc)
         (accountBalance (billingInfo acc) + balance_change op prev doc)) None))).
Proof.
  unfold account_after_change, plan, apply_update. cbn [billingInfo].
  rewrite overdue_update_billingInfo. reflexivity.
Qed.

Lemma ledger_insert_new (m : gmap string BillingRecord) i x :
  m !! i = None -> ledger (<[i:=x]> m) = contribution x + ledger m.
Proof. intros H. unfold ledger. apply (map_fold_insert_L (fun _ r acc => contribution r + acc)); [intros; lia | exact H]. Qed.

Lemma ledger_delete (m : gmap string BillingRecord) i x :
  m !! i = Some x -> ledger m = contribution x + ledger (base.delete i m).
Proof. intros H. unfold ledger. apply (map_fold_delete_L (fun _ r acc => contribution r + acc)); [intros; lia | exact H]. Qed.

Lemma ledger_insert_replace (m : gmap string BillingRecord) i x y :
  m !! i = Some y -> ledger (<[i:=x]> m) = ledger m - contribution y + contribution x.
Proof.
  intros H. rewrite <- insert_delete_eq, ledger_insert_new by apply lookup_delete_eq.
  rewrite (ledger_delete m i y H). lia.
Qed.

Lemma step_records today s e :
  ls_records (step today s e) = log_step (ls_records s) e.
Proof.
  destruct e as [doc|doc|id]; cbn.
  - reflexivity.
  - destruct (ls_records s !! rec_id doc); reflexivity.
  - destruct (ls_records s !! id) eqn:E; [reflexivity|].
    symmetry. apply delete_id. exact E.
Qed.

Lemma run_records today s evs :
  ls_records (run today s evs) = fold_left log_step evs (ls_records s).
Proof.
  revert s. induction evs as [|e es IH]; intros s; [reflexivity|].
  cbn. rewrite IH, step_records. reflexivity.
Qed.

Lemma step_inv today s e :
  ledger_inv s -> valid_event s e = true ->
  0 <= ledger (ls_records (step today s e)) -> ledger_inv (step today s e).
Proof.
  intros [Hbal Hpos] Hv Hnn. unfold ledger_inv, balance in *.
  destruct e as [doc|doc|id]; cbn -[account_after_change account_after_delete ledger] in Hv, Hnn |- *.
  - apply andb_true_iff in Hv as [Hnp Hfresh].
    destruct (ls_records s !! rec_id doc) eqn:E; [discriminate|].
    apply negb_true_iff in Hnp.
    rewrite balance_after_change, ledger_insert_new by exact E.
    split.
    + cbn. unfold contribution. rewrite Hnp, Hbal. lia.
    + apply map_Forall_insert_2; [|exact Hpos]. intros Hp. congruence.
  - destruct (ls_records s !! rec_id doc) as [p|] eqn:E; [|discriminate].
    cbn -[account_after_change ledger] in Hnn |- *. rewrite ledger_insert_replace with (y := p) in Hnn |- * by exact E.
    assert (Hp : is_paid (status p) = true -> 0 < paidAmount p)
      by exact (map_Forall_lookup_1 _ _ _ _ Hpos E).
    split.
    + rewrite balance_after_change. unfold payment_status_update, contribution in *.
      cbn [balance_change ud_billingInfo accountBalance set_balance] in *.
      rewrite <- Hbal in *.
      destruct (is_paid (status doc)) eqn:Ed, (is_paid (status p)) eqn:Ep;
        cbn [andb negb ud_billingInfo]; cbn [accountBalance set_balance].
      * destruct (Z.eqb_spec (paidAmount doc - paidAmount p) 0); cbn; lia.
      * unfold or_num. destruct (Z.eqb_spec (paidAmount doc) 0); [lia|].
        destruct (Z.ltb_spec 0 (paidAmount doc)); cbn; lia.
      * specialize (Hp eq_refl). destruct (Z.ltb_spec 0 (paidAmount p)); cbn; lia.
      * lia.
    + apply map_Forall_insert_2; [|exact Hpos].
      intros Hd. rewrite Hd in Hv. apply Z.ltb_lt. exact Hv.
  - destruct (ls_records s !! id) as [d|] eqn:E; [|discriminate].
    apply negb_true_iff in Hv. cbn.
    rewrite (ledger_delete _ _ _ E) in Hbal. split.
    + unfold contribution in Hbal. rewrite Hv in Hbal. lia.
    + apply map_Forall_delete. exact Hpos.
Qed.

Lemma run_inv today s evs n :
  ledger_inv s -> valid_run today s evs = true -> ledger_inv (run today s (take n evs)).
Proof.
  revert s n. induction evs as [|e es IH]; intros s n Hs Hv.
  - rewrite take_nil. exact Hs.
  - destruct n as [|n]; [exact Hs|]. cbn in Hv |- *.
    apply andb_true_iff in Hv as [Hv Hrest]. apply andb_true_iff in Hv as [He Hnn].
    apply IH; [|exact Hrest]. apply step_inv; [exact Hs|exact He|]. apply Z.leb_le. exact Hnn.
Qed.


(* ------------------------------------------------------------------ *)
(** ** Integers below 2^53 are exact in binary64 *)

Module DoubleFacts.
Import Double.


Lemma digits2_pos_bounds (p : positive) :
  2 ^ (Zpos (digits2_pos p) - 1) <= Zpos p < 2 ^ Zpos (digits2_pos p).
Proof.
  induction p as [p IH|p IH|]; cbn [digits2_pos].
  1,2: rewrite Pos2Z.inj_succ; set (d := Zpos (digits2_pos p)) in *;
    assert (Hd : 1 <= d) by (unfold d; lia);
    replace (Z.succ d - 1) with d by lia;
    assert (H2 : 2 ^ Z.succ d = 2 * 2 ^ d) by (rewrite Z.pow_succ_r; lia);
    assert (H3 : 2 ^ d = 2 * 2 ^ (d - 1)) by (rewrite <- Z.pow_succ_r by lia; f_equal; lia);
    rewrite H2; first [rewrite (Pos2Z.inj_xI p) | rewrite (Pos2Z.inj_xO p)].
  all: lia.
Qed.

Lemma digits2_pos_unique (p : positive) (x : Z) :
  1 <= x -> 2 ^ (x - 1) <= Zpos p < 2 ^ x -> Zpos (digits2_pos p) = x.
Proof.
  intros Hx [H1 H2]. pose proof (digits2_pos_bounds p) as [D1 D2].
  set (d := Zpos (digits2_pos p)) in *.
  assert (Hd : 1 <= d) by (unfold d; lia).
  destruct (Z.lt_trichotomy d x) as [Hl|[He|Hg]]; [|exact He|].
  - exfalso. assert (2 ^ d <= 2 ^ (x - 1)) by (apply Z.pow_le_mono_r; lia). lia.
  - exfalso. assert (2 ^ x <= 2 ^ (d - 1)) by (apply Z.pow_le_mono_r; lia). lia.
Qed.

Lemma digits2_pos_shift (m r : positive) (j : Z) :
  0 <= j -> Zpos m = Zpos r * 2 ^ j ->
  Zpos (digits2_pos m) = Zpos (digits2_pos r) + j.
Proof.
  intros Hj Hm. apply digits2_pos_unique; [lia|].
  pose proof (digits2_pos_bounds r) as [D1 D2]. rewrite Hm.
  replace (Zpos (digits2_pos r) + j - 1) with ((Zpos (digits2_pos r) - 1) + j) by lia.
  rewrite !Z.pow_add_r by lia. pose proof (Z.pow_pos_nonneg 2 j ltac:(lia) Hj). nia.
Qed.

Lemma Pos_iter_xO (m j : positive) : Zpos (Pos.iter xO m j) = Zpos m * 2 ^ Zpos j.
Proof.
  induction j as [|j IH] using Pos.peano_ind.
  - cbn. lia.
  - rewrite Pos.iter_succ, Pos2Z.inj_xO, IH, Pos2Z.inj_succ, Z.pow_succ_r by lia. lia.
Qed.

Lemma iter_pos_succ {A} (f : A -> A) (p : positive) (x : A) :
  SpecFloat.iter_pos f p (f x) = f (SpecFloat.iter_pos f p x).
Proof.
  revert x. induction p as [p IH|p IH|]; intros x; cbn.
  - rewrite !IH. reflexivity.
  - rewrite !IH. reflexivity.
  - reflexivity.
Qed.

Lemma iter_pos_iter {A} (f : A -> A) (p : positive) (x : A) :
  SpecFloat.iter_pos f p x = Pos.iter f x p.
Proof.
  revert x. induction p as [p IH|p IH|]; intros x; cbn.
  - rewrite !IH, !Pos.iter_swap. reflexivity.
  - rewrite !IH. reflexivity.
  - reflexivity.
Qed.

Lemma shr_exact (c m j : positive) :
  Zpos m = Zpos c * 2 ^ Zpos j ->
  SpecFloat.iter_pos shr_1 j (Build_shr_record (Zpos m) false false)
  = Build_shr_record (Zpos c) false false.
Proof.
  rewrite iter_pos_iter. revert m.
  induction j as [|j IH] using Pos.peano_ind; intros m Hm.
  - cbn. destruct m as [m|m|]; cbn.
    + exfalso. rewrite Pos2Z.inj_xI in Hm. cbn in Hm. lia.
    + f_equal. f_equal. rewrite Pos2Z.inj_xO in Hm. cbn in Hm. lia.
    + exfalso. cbn in Hm. lia.
  - rewrite Pos.iter_succ_r. rewrite Pos2Z.inj_succ, Z.pow_succ_r in Hm by lia.
    destruct m as [m|m|]; cbn.
    + exfalso. rewrite Pos2Z.inj_xI in Hm. lia.
    + apply IH. rewrite Pos2Z.inj_xO in Hm. lia.
    + exfalso. pose proof (Z.pow_pos_nonneg 2 (Zpos j) ltac:(lia) ltac:(lia)). lia.
Qed.

Lemma fexp_eq (x : Z) : -1021 <= x -> fexp prec emax x = x - 53.
Proof. intros H. unfold fexp, emin, prec, emax. lia. Qed.

Lemma round_aux_exact (s : bool) (m c : positive) (e t : Z) :
  Zpos (digits2_pos c) = 53 -> -1074 <= t <= 971 -> e <= t ->
  Zpos m = Zpos c * 2 ^ (t - e) ->
  binary_round_aux prec emax s (Zpos m) e loc_Exact = S754_finite s c t.
Proof.
  intros Hc Ht He Hm.
  unfold binary_round_aux, shr_fexp. cbn [Zdigits2 shr_record_of_loc].
  rewrite (digits2_pos_shift m c (t - e)) by (lia || exact Hm).
  rewrite Hc, fexp_eq by lia.
  replace (53 + (t - e) + e - 53 - e) with (t - e) by lia.
  destruct (t - e) as [|j|j] eqn:E.
  - cbn [shr]. assert (m = c) as -> by (cbn in Hm; lia).
    replace e with t by lia. cbn [shr_m loc_of_shr_record round_nearest_even Zdigits2].
    rewrite Hc, fexp_eq by lia. replace (53 + t - 53 - t) with 0 by lia. cbn [shr shr_m].
    replace (t <=? emax - prec) with true by (symmetry; apply Z.leb_le; unfold emax, prec; lia).
    reflexivity.
  - cbn [shr]. rewrite (shr_exact c m j Hm).
    cbn [shr_m loc_of_shr_record round_nearest_even Zdigits2].
    rewrite Hc, fexp_eq by lia.
    replace (53 + (e + Zpos j) - 53 - (e + Zpos j)) with 0 by lia. cbn [shr shr_m].
    replace (e + Zpos j <=? emax - prec) with true by (symmetry; apply Z.leb_le; unfold emax, prec; lia).
    replace (e + Zpos j) with t by lia. reflexivity.
  - lia.
Qed.

Lemma canon_digits (r c : positive) :
  Zpos r < 2 ^ 53 -> Zpos c = Zpos r * 2 ^ (53 - Zpos (digits2_pos r)) ->
  Zpos (digits2_pos c) = 53.
Proof.
  intros Hr Hc. pose proof (digits2_pos_bounds r) as [D1 D2].
  assert (Hd : Zpos (digits2_pos r) <= 53).
  { destruct (Z.le_gt_cases (Zpos (digits2_pos r)) 53) as [H|H]; [exact H|].
    assert (2 ^ 53 <= 2 ^ (Zpos (digits2_pos r) - 1)) by (apply Z.pow_le_mono_r; lia). lia. }
  rewrite (digits2_pos_shift c r (53 - Zpos (digits2_pos r))) by (lia || exact Hc). lia.
Qed.

Lemma round_exact (s : bool) (m r c : positive) (e : Z) :
  e <= 0 -> Zpos m = Zpos r * 2 ^ (- e) -> Zpos r < 2 ^ 53 ->
  Zpos c = Zpos r * 2 ^ (53 - Zpos (digits2_pos r)) ->
  binary_round prec emax s m e = S754_finite s c (Zpos (digits2_pos r) - 53).
Proof.
  intros He Hm Hr Hc.
  pose proof (canon_digits r c Hr Hc) as Hdc.
  pose proof (digits2_pos_bounds r) as [D1 D2].
  assert (Hd : Zpos (digits2_pos r) <= 53).
  { destruct (Z.le_gt_cases (Zpos (digits2_pos r)) 53) as [H|H]; [exact H|].
    assert (2 ^ 53 <= 2 ^ (Zpos (digits2_pos r) - 1)) by (apply Z.pow_le_mono_r; lia). lia. }
  set (dr := Zpos (digits2_pos r)) in *.
  assert (Hdr : 1 <= dr) by (unfold dr; lia).
  unfold binary_round.
  rewrite (digits2_pos_shift m r (- e)) by (lia || exact Hm). fold dr.
  rewrite fexp_eq by lia. replace (dr + - e + e - 53) with (dr - 53) by lia.
  unfold shl_align.
  destruct (dr - 53 - e) as [|j|j] eqn:E.
  - apply round_aux_exact; [exact Hdc|lia|lia|].
    rewrite Hm, Hc, <- Z.mul_assoc, <- Z.pow_add_r by lia. f_equal. f_equal. lia.
  - apply round_aux_exact; [exact Hdc|lia|lia|].
    rewrite Hm, Hc, <- Z.mul_assoc, <- Z.pow_add_r by lia. f_equal. f_equal. lia.
  - apply round_aux_exact; [exact Hdc|lia|lia|].
    rewrite Z.sub_diag, Z.pow_0_r, Z.mul_1_r, Pos_iter_xO, Hm, Hc.
    rewrite <- Z.mul_assoc, <- Z.pow_add_r by lia. f_equal. f_equal. lia.
Qed.

Definition mant (r : positive) : positive :=
  Z.to_pos (Zpos r * 2 ^ (53 - Zpos (digits2_pos r))).

Lemma digits_le_53 (r : positive) : Zpos r < 2 ^ 53 -> Zpos (digits2_pos r) <= 53.
Proof.
  intros Hr. pose proof (digits2_pos_bounds r) as [D1 D2].
  destruct (Z.le_gt_cases (Zpos (digits2_pos r)) 53) as [H|H]; [exact H|].
  assert (2 ^ 53 <= 2 ^ (Zpos (digits2_pos r) - 1)) by (apply Z.pow_le_mono_r; lia). lia.
Qed.

Lemma mant_spec (r : positive) : Zpos r < 2 ^ 53 ->
  Zpos (mant r) = Zpos r * 2 ^ (53 - Zpos (digits2_pos r)).
Proof.
  intros Hr. pose proof (digits_le_53 r Hr). unfold mant. rewrite Z2Pos.id; [reflexivity|].
  pose proof (Z.pow_pos_nonneg 2 (53 - Zpos (digits2_pos r)) ltac:(lia) ltac:(lia)). lia.
Qed.

Lemma of_Z_pos (r : positive) : Zpos r < 2 ^ 53 ->
  of_Z (Zpos r) = S754_finite false (mant r) (Zpos (digits2_pos r) - 53).
Proof.
  intros Hr. unfold of_Z, binary_normalize. apply round_exact; [lia| |exact Hr|apply mant_spec, Hr].
  cbn. lia.
Qed.

Lemma of_Z_neg (r : positive) : Zpos r < 2 ^ 53 ->
  of_Z (Zneg r) = S754_finite true (mant r) (Zpos (digits2_pos r) - 53).
Proof.
  intros Hr. unfold of_Z, binary_normalize. apply round_exact; [lia| |exact Hr|apply mant_spec, Hr].
  cbn. lia.
Qed.

Lemma of_Z_0 : of_Z 0 = S754_zero false.
Proof. reflexivity. Qed.

Lemma of_Z_finite (a : Z) : a <> 0 -> Z.abs a < 2 ^ 53 ->
  exists s c t, of_Z a = S754_finite s c t /\ t <= 0
    /\ cond_Zopp s (Zpos c) = a * 2 ^ (- t).
Proof.
  intros Ha Hr. pose proof (digits2_pos_bounds) as _.
  destruct a as [|r|r]; [congruence| |].
  - exists false, (mant r), (Zpos (digits2_pos r) - 53).
    pose proof (digits_le_53 r Hr). rewrite of_Z_pos by exact Hr.
    split; [reflexivity|]. split; [lia|]. cbn [cond_Zopp]. rewrite mant_spec by exact Hr.
    f_equal. f_equal. lia.
  - cbn in Hr. exists true, (mant r), (Zpos (digits2_pos r) - 53).
    pose proof (digits_le_53 r Hr). rewrite of_Z_neg by exact Hr.
    split; [reflexivity|]. split; [lia|]. cbn [cond_Zopp]. rewrite mant_spec by exact Hr.
    replace (- (Zpos (digits2_pos r) - 53)) with (53 - Zpos (digits2_pos r)) by lia.
    change (Zneg r) with (- Zpos r). lia.
Qed.

Lemma normalize_exact (z e : Z) : e <= 0 -> Z.abs z < 2 ^ 53 ->
  binary_normalize prec emax (z * 2 ^ (- e)) e false = of_Z z.
Proof.
  intros He Hz. pose proof (Z.pow_pos_nonneg 2 (- e) ltac:(lia) ltac:(lia)) as Hp.
  destruct z as [|r|r].
  - reflexivity.
  - cbn in Hz. rewrite of_Z_pos by exact Hz.
    destruct (Zpos r * 2 ^ (- e)) as [|m|m] eqn:Em; [nia| |nia].
    cbn [binary_normalize]. apply round_exact; [exact He|lia|exact Hz|apply mant_spec, Hz].
  - cbn in Hz. rewrite of_Z_neg by exact Hz.
    destruct (Zneg r * 2 ^ (- e)) as [|m|m] eqn:Em; [nia|nia|].
    cbn [binary_normalize]. apply round_exact; [exact He| |exact Hz|apply mant_spec, Hz].
    change (Zneg m) with (- Zpos m) in Em. change (Zneg r) with (- Zpos r) in Em. lia.
Qed.

Lemma shl_align_val (c : positive) (t ez : Z) : ez <= t ->
  Zpos (fst (shl_align c t ez)) = Zpos c * 2 ^ (t - ez).
Proof.
  intros H. unfold shl_align. destruct (ez - t) as [|j|j] eqn:E; cbn [fst].
  - replace (t - ez) with 0 by lia. lia.
  - lia.
  - rewrite Pos_iter_xO. f_equal. f_equal. lia.
Qed.

Lemma finite_sum (sa sb : bool) (ca cb : positive) (ta tb : Z) (a b : Z) :
  ta <= 0 -> tb <= 0 ->
  cond_Zopp sa (Zpos ca) = a * 2 ^ (- ta) -> cond_Zopp sb (Zpos cb) = b * 2 ^ (- tb) ->
  cond_Zopp sa (Zpos (fst (shl_align ca ta (Z.min ta tb))))
  = a * 2 ^ (- Z.min ta tb)
  /\ cond_Zopp sb (Zpos (fst (shl_align cb tb (Z.min ta tb))))
  = b * 2 ^ (- Z.min ta tb).
Proof.
  intros Ha Hb Ea Eb.
  rewrite !shl_align_val by lia.
  assert (Hs : forall s c k, cond_Zopp s (c * k) = cond_Zopp s c * k)
    by (intros [|] ? ?; cbn; lia).
  rewrite !Hs, Ea, Eb, <- !Z.mul_assoc, <- !Z.pow_add_r by lia.
  split; f_equal; f_equal; lia.
Qed.

Lemma add_exact (a b : Z) :
  Z.abs a < 2 ^ 53 -> Z.abs b < 2 ^ 53 -> Z.abs (a + b) < 2 ^ 53 ->
  SFadd prec emax (of_Z a) (of_Z b) = of_Z (a + b).
Proof.
  intros Ha Hb Hab.
  destruct (Z.eq_dec a 0) as [->|Ha0]; [destruct (Z.eq_dec b 0) as [->|Hb0]|].
  - reflexivity.
  - destruct (of_Z_finite b Hb0 Hb) as (sb & cb & tb & Eb & _). rewrite of_Z_0, Z.add_0_l, Eb. reflexivity.
  - destruct (Z.eq_dec b 0) as [->|Hb0].
    + destruct (of_Z_finite a Ha0 Ha) as (sa & ca & ta & Ea & _). rewrite Z.add_0_r, of_Z_0, Ea.
      reflexivity.
    + destruct (of_Z_finite a Ha0 Ha) as (sa & ca & ta & Ea & Hta & Va).
      destruct (of_Z_finite b Hb0 Hb) as (sb & cb & tb & Eb & Htb & Vb).
      rewrite Ea, Eb. cbn [SFadd].
      destruct (finite_sum sa sb ca cb ta tb a b Hta Htb Va Vb) as [-> ->].
      rewrite <- Z.mul_add_distr_r. apply normalize_exact; lia.
Qed.

Lemma sub_exact (a b : Z) :
  Z.abs a < 2 ^ 53 -> Z.abs b < 2 ^ 53 -> Z.abs (a - b) < 2 ^ 53 ->
  SFsub prec emax (of_Z a) (of_Z b) = of_Z (a - b).
Proof.
  intros Ha Hb Hab.
  destruct (Z.eq_dec a 0) as [->|Ha0]; [destruct (Z.eq_dec b 0) as [->|Hb0]|].
  - reflexivity.
  - destruct b as [|r|r]; [congruence| |]; cbn in Hb.
    + change (0 - Zpos r) with (Zneg r). rewrite of_Z_0, of_Z_pos, of_Z_neg by exact Hb.
      reflexivity.
    + change (0 - Zneg r) with (Zpos r). rewrite of_Z_0, of_Z_pos, of_Z_neg by exact Hb.
      reflexivity.
  - destruct (Z.eq_dec b 0) as [->|Hb0].
    + destruct (of_Z_finite a Ha0 Ha) as (sa & ca & ta & Ea & _). rewrite Z.sub_0_r, of_Z_0, Ea.
      reflexivity.
    + destruct (of_Z_finite a Ha0 Ha) as (sa & ca & ta & Ea & Hta & Va).
      destruct (of_Z_finite b Hb0 Hb) as (sb & cb & tb & Eb & Htb & Vb).
      rewrite Ea, Eb. cbn [SFsub].
      destruct (finite_sum sa sb ca cb ta tb a b Hta Htb Va Vb) as [-> ->].
      rewrite <- Z.mul_sub_distr_r. apply normalize_exact; lia.
Qed.

Lemma ltb_zero_exact (a : Z) : Z.abs a < 2 ^ 53 ->
  SFltb (S754_zero false) (of_Z a) = (0 <? a).
Proof.
  intros Ha. destruct a as [|r|r]; cbn in Ha.
  - reflexivity.
  - rewrite of_Z_pos by exact Ha. reflexivity.
  - rewrite of_Z_neg by exact Ha. reflexivity.
Qed.

Lemma eqb_zero_exact (a : Z) : Z.abs a < 2 ^ 53 ->
  SFeqb (of_Z a) (S754_zero false) = (a =? 0).
Proof.
  intros Ha. destruct a as [|r|r]; cbn in Ha.
  - reflexivity.
  - rewrite of_Z_pos by exact Ha. reflexivity.
  - rewrite of_Z_neg by exact Ha. reflexivity.
Qed.

Lemma or_else_of_Z (z : Z) (d : number) : Z.abs z < 2 ^ 53 ->
  or_else (of_Z z) d = if z =? 0 then d else of_Z z.
Proof.
  intros Hz. destruct (Z.eqb_spec z 0) as [->|Hz0]; [reflexivity|].
  destruct (of_Z_finite z Hz0 Hz) as (s & c & t & E & _). rewrite E. reflexivity.
Qed.

Lemma or0_of_Z (z : Z) : Z.abs z < 2 ^ 53 -> or_else (of_Z z) zero = of_Z z.
Proof.
  intros Hz. rewrite or_else_of_Z by exact Hz.
  destruct (Z.eqb_spec z 0) as [->|]; reflexivity.
Qed.

Lemma add_of_Z (a b : Z) :
  Z.abs a < 2 ^ 53 -> Z.abs b < 2 ^ 53 -> Z.abs (a + b) < 2 ^ 53 ->
  add (of_Z a) (of_Z b) = of_Z (a + b).
Proof. apply add_exact. Qed.

Lemma sub_of_Z (a b : Z) :
  Z.abs a < 2 ^ 53 -> Z.abs b < 2 ^ 53 -> Z.abs (a - b) < 2 ^ 53 ->
  sub (of_Z a) (of_Z b) = of_Z (a - b).
Proof. apply sub_exact. Qed.

Lemma gt0_of_Z (a : Z) : Z.abs a < 2 ^ 53 -> gt0 (of_Z a) = (0 <? a).
Proof. apply ltb_zero_exact. Qed.

Lemma neq0_of_Z (a : Z) : Z.abs a < 2 ^ 53 -> neq0 (of_Z a) = negb (a =? 0).
Proof. intros Ha. unfold neq0. rewrite eqb_zero_exact by exact Ha. reflexivity. Qed.

Lemma max0_of_Z (a : Z) : Z.abs a < 2 ^ 53 -> max0 (of_Z a) = of_Z (Z.max 0 a).
Proof.
  intros Ha. destruct (Z.eqb_spec a 0) as [->|Ha0]; [reflexivity|].
  destruct (of_Z_finite a Ha0 Ha) as (s & c & t & E & _).
  unfold max0. rewrite E, <- E. fold zero. rewrite ltb_zero_exact by exact Ha.
  destruct (Z.ltb_spec 0 a); [rewrite Z.max_r by lia; reflexivity|].
  rewrite Z.max_l by lia. reflexivity.
Qed.

End DoubleFacts.


Section Exactness.
Import DoubleFacts.

Lemma ledger_bound (B : Z) (m : gmap string BillingRecord) :
  DLedger.recs_within B m -> Z.abs (ledger m) <= 2 * B * Z.of_nat (size m).
Proof.
  induction m as [|i x m Hi IH] using map_ind; intros H.
  - rewrite map_size_empty. unfold ledger. rewrite map_fold_empty. lia.
  - rewrite ledger_insert_new by exact Hi. rewrite map_size_insert_None by exact Hi.
    apply map_Forall_insert in H as [[Ha Hp] Hm]; [|exact Hi].
    specialize (IH Hm). rewrite Nat2Z.inj_succ. unfold contribution.
    destruct (is_paid (status x)); nia.
Qed.

Ltac exact_ops :=
  repeat first
    [ rewrite or0_of_Z by lia
    | rewrite add_of_Z by lia
    | rewrite sub_of_Z by lia
    | rewrite gt0_of_Z by lia
    | rewrite neq0_of_Z by lia
    | rewrite max0_of_Z by lia ].

Lemma step_exact (today B : Z) (s : LState) (e : event) :
  ledger_inv s -> valid_event s e = true -> DLedger.within B e = true ->
  DLedger.recs_within B (ls_records s) ->
  Z.abs (balance s) + 4 * B < 2 ^ 53 ->
  DLedger.step (DLedger.of_state s) (DLedger.of_event e) = DLedger.of_state (step today s e).
Proof.
  intros [Hbal Hpos] Hv Hw Hr HB. unfold DLedger.of_state.
  destruct e as [doc|doc|id]; cbn [DLedger.of_event DLedger.step DLedger.within
    DLedger.d_balance DLedger.d_records] in *.
  - apply andb_true_iff in Hw as [Ha Hp]. apply Z.leb_le in Ha, Hp.
    cbn [step ls_records]. rewrite fmap_insert. f_equal.
    unfold balance. cbn [ls_account]. rewrite balance_after_change.
    unfold DLedger.balance_after_change, DLedger.balance_change, DLedger.amount_or0.
    cbn [DLedger.of_record DLedger.d_amount payment_status_update ud_billingInfo
      set_balance accountBalance balance_change].
    fold (balance s). exact_ops. reflexivity.
  - apply andb_true_iff in Hw as [Ha Hp]. apply Z.leb_le in Ha, Hp.
    cbn [DLedger.of_record DLedger.d_id]. rewrite lookup_fmap.
    cbn [step]. destruct (ls_records s !! rec_id doc) as [p|] eqn:E; [|reflexivity].
    cbn [fmap option_fmap option_map ls_records]. rewrite fmap_insert. f_equal.
    destruct (Hr _ _ E) as [Hpa Hpp].
    assert (Hpaid : is_paid (status p) = true -> 0 < paidAmount p)
      by exact (map_Forall_lookup_1 _ _ _ _ Hpos E).
    unfold balance. cbn [ls_account]. rewrite balance_after_change.
    unfold DLedger.balance_after_change, DLedger.balance_change, DLedger.amount_or0,
      DLedger.paid_or0, payment_status_update.
    cbn [DLedger.of_record DLedger.d_amount DLedger.d_paidAmount DLedger.d_status
      ud_billingInfo set_balance accountBalance balance_change].
    fold (balance s). exact_ops.
    destruct (is_paid (status doc)) eqn:Ed, (is_paid (status p)) eqn:Ep;
      cbn [andb negb ud_billingInfo accountBalance set_balance].
    + destruct (Z.eqb_spec (paidAmount doc - paidAmount p) 0); cbn; exact_ops; reflexivity.
    + unfold or_num. rewrite or_else_of_Z by lia.
      destruct (Z.eqb_spec (paidAmount doc) 0); exact_ops.
      * destruct (Z.ltb_spec 0 (amount doc)); cbn; exact_ops; reflexivity.
      * destruct (Z.ltb_spec 0 (paidAmount doc)); cbn; exact_ops; reflexivity.
    + destruct (Z.ltb_spec 0 (paidAmount p)); cbn; exact_ops; reflexivity.
    + reflexivity.
  - cbn [step]. rewrite lookup_fmap.
    destruct (ls_records s !! id) as [d|] eqn:E; [|reflexivity].
    cbn [fmap option_fmap option_map ls_records]. rewrite fmap_delete. f_equal.
    destruct (Hr _ _ E) as [Hda Hdp].
    unfold balance. cbn [ls_account account_after_delete apply_update delete_update
      billingInfo ud_billingInfo set_balance accountBalance].
    unfold DLedger.balance_after_delete, DLedger.amount_or0.
    cbn [DLedger.of_record DLedger.d_amount]. fold (balance s). exact_ops. reflexivity.
Qed.

Lemma recs_within_step (today B : Z) (s : LState) (e : event) :
  DLedger.recs_within B (ls_records s) -> DLedger.within B e = true ->
  DLedger.recs_within B (ls_records (step today s e)).
Proof.
  intros Hr Hw. rewrite step_records.
  destruct e as [doc|doc|id]; cbn [log_step DLedger.within] in *.
  - apply andb_true_iff in Hw as [Ha Hp]. apply Z.leb_le in Ha, Hp.
    apply map_Forall_insert_2; [split; assumption | exact Hr].
  - apply andb_true_iff in Hw as [Ha Hp]. apply Z.leb_le in Ha, Hp.
    destruct (ls_records s !! rec_id doc); [|exact Hr].
    apply map_Forall_insert_2; [split; assumption | exact Hr].
  - apply map_Forall_delete. exact Hr.
Qed.

Lemma size_step (today : Z) (s : LState) (e : event) :
  (size (ls_records (step today s e)) <= S (size (ls_records s)))%nat.
Proof.
  rewrite step_records. destruct e as [doc|doc|id]; cbn [log_step].
  - destruct (ls_records s !! rec_id doc) eqn:E.
    + rewrite map_size_insert_Some by (eexists; exact E). lia.
    + rewrite map_size_insert_None by exact E. lia.
  - destruct (ls_records s !! rec_id doc) eqn:E; [|lia].
    rewrite map_size_insert_Some by (eexists; exact E). lia.
  - destruct (ls_records s !! id) eqn:E.
    + rewrite map_size_delete_Some by (eexists; exact E). lia.
    + rewrite map_size_delete_None by exact E. lia.
Qed.

Lemma run_exact (today B : Z) (s : LState) (evs : list event) (n : nat) :
  ledger_inv s -> valid_run today s evs = true ->
  forallb (DLedger.within B) evs = true -> DLedger.recs_within B (ls_records s) ->
  2 * B * (Z.of_nat (size (ls_records s)) + Z.of_nat (length evs) + 2) < 2 ^ 53 ->
  DLedger.run (DLedger.of_state s) (map DLedger.of_event (take n evs))
  = DLedger.of_state (run today s (take n evs)).
Proof.
  revert s n. induction evs as [|e es IH]; intros s n Hinv Hv Hw Hr HB.
  - rewrite take_nil. reflexivity.
  - destruct n as [|n]; [reflexivity|].
    cbn [take map DLedger.run run valid_run forallb length] in *.
    apply andb_true_iff in Hv as [Hv Hrest]. apply andb_true_iff in Hv as [He Hnn].
    apply Z.leb_le in Hnn. apply andb_true_iff in Hw as [We Wes].
    pose proof (ledger_bound B _ Hr) as HL.
    assert (Hbal : Z.abs (balance s) + 4 * B < 2 ^ 53).
    { destruct Hinv as [Hb _]. rewrite Hb. rewrite Nat2Z.inj_succ in HB.
      destruct (Z.le_gt_cases 0 B); nia. }
    rewrite (step_exact today B s e Hinv He We Hr Hbal).
    apply IH.
    + apply step_inv; assumption.
    + exact Hrest.
    + exact Wes.
    + apply recs_within_step; assumption.
    + pose proof (size_step today s e) as Hs. rewrite Nat2Z.inj_succ in HB.
      destruct (Z.le_gt_cases 0 B); [|nia].
      assert (Z.of_nat (size (ls_records (step today s e)))
              <= Z.of_nat (size (ls_records s)) + 1) by lia.
      nia.
Qed.

End Exactness.


(** C1 (amended): start from an account of balance 0 and take a valid run
    whose amounts are whole numbers in [-B, B], with
    [2 * B * (number of events + 2) < 2^53]. In a valid run, records are
    created unpaid with fresh ids, a paid record has a positive
    paidAmount, no paid record is deleted, and the ledger is never
    negative (so the [Math.max(0, _)] clamps never act). After every prefix
    of such a run, the balance computed in JavaScript numbers is exactly
    the ledger recomputed from the event log: [+amount] for each existing
    record and [-paidAmount] for each paid one. *)
Theorem balance_is_ledger (today : Z) (acc : Account) (evs : list event) (B : Z)
  (H0 : accountBalance (billingInfo acc) = 0)
  (Hv : valid_run today (init acc) evs = true)
  (Hw : forallb (DLedger.within B) evs = true)
  (HB : 2 * B * (Z.of_nat (length evs) + 2) < 2 ^ 53) (n : nat) :
  DLedger.d_balance (DLedger.run DLedger.init (map DLedger.of_event (take n evs)))
  = Double.of_Z (ledger (log_records (take n evs))).
Proof.
  assert (Hinit : DLedger.of_state (init acc) = DLedger.init).
  { unfold DLedger.of_state, balance, init. cbn [ls_account ls_records].
    rewrite H0, fmap_empty. reflexivity. }
  assert (Hinv : ledger_inv (init acc)).
  { split; [unfold balance, init; cbn; rewrite H0; reflexivity|].
    apply map_Forall_empty. }
  rewrite <- Hinit, (run_exact today B (init acc) evs n Hinv Hv Hw).
  - unfold DLedger.of_state. cbn [DLedger.d_balance].
    destruct (run_inv today (init acc) evs n Hinv Hv) as [Hb _]. rewrite Hb.
    rewrite run_records. reflexivity.
  - apply map_Forall_empty.
  - cbn [init ls_records]. rewrite map_size_empty. cbn [Z.of_nat]. lia.
Qed.










Lemma payment_status_update_unpaid op prev doc acc today ud :
  negb (is_paid (status doc))
  && match prev with Some p => negb (is_paid (status p)) | None => true end = true ->
  payment_status_update op prev doc acc today ud = ud.
Proof.
  intros H. apply andb_true_iff in H as [Hd Hp]. apply negb_true_iff in Hd.
  unfold payment_status_update. destruct op, prev as [p|]; try reflexivity.
  apply negb_true_iff in Hp. rewrite Hd, Hp. reflexivity.
Qed.



(** C4 (amended): there is no replay guard. Running the same
    reconciliation twice, for a mutation that involves no paid status,
    adds its balance delta [d] to the stored balance [b] twice: the account
    ends with [(b + d) + d]. In JavaScript numbers each addition rounds,
    and the second one reads the stored result back through [|| 0]. *)
Theorem replay_applies_delta_again (op : operation) (prev : option BillingRecord)
  (doc : BillingRecord) (acc : Account) (today today' : Z)
  (dprev : option DLedger.DRecord) (ddoc : DLedger.DRecord) (b : Double.number)
  (Hunpaid : negb (is_paid (status doc))
     && match prev with Some p => negb (is_paid (status p)) | None => true end = true)
  (Hdunpaid : negb (is_paid (DLedger.d_status ddoc))
     && match dprev with Some p => negb (is_paid (DLedger.d_status p)) | None => true end
     = true) :
  accountBalance (billingInfo
    (account_after_change op prev doc (account_after_change op prev doc acc today) today'))
  = (accountBalance (billingInfo acc) + balance_change op prev doc) + balance_change op prev doc
  /\ DLedger.balance_after_change op dprev ddoc (DLedger.balance_after_change op dprev ddoc b)
     = Double.add
         (Double.or_else
            (Double.add (Double.or_else b Double.zero) (DLedger.balance_change op dprev ddoc))
            Double.zero)
         (DLedger.balance_change op dprev ddoc).
Proof.
  split.
  - unfold account_after_change at 1, plan, apply_update. cbn [billingInfo].
    rewrite overdue_update_billingInfo, payment_status_update_unpaid by exact Hunpaid.
    cbn. unfold account_after_change, plan, apply_update. cbn [billingInfo].
    rewrite overdue_update_billingInfo, payment_status_update_unpaid by exact Hunpaid.
    cbn. reflexivity.
  - apply andb_true_iff in Hdunpaid as [Hd Hp]. apply negb_true_iff in Hd.
    unfold DLedger.balance_after_change.
    destruct op, dprev as [p|]; try reflexivity.
    apply negb_true_iff in Hp. rewrite Hd, Hp. reflexivity.
Qed.


(** Witness of C4: a create of 75 delivered twice, on an account of
    balance 0. *)
Lemma replay_applies_delta_again_witness :
  negb (is_paid (status (rec "r1" 75 (Some Pending) 0))) && true = true
  /\ accountBalance (billingInfo
       (account_after_change OpCreate None (rec "r1" 75 (Some Pending) 0)
          (account_after_change OpCreate None (rec "r1" 75 (Some Pending) 0) acc0
             (noon 2024 3 15)) (noon 2024 3 15))) = 150
  /\ DLedger.balance_after_change OpCreate None (DLedger.of_record (rec "r1" 75 (Some Pending) 0))
       (DLedger.balance_after_change OpCreate None
          (DLedger.of_record (rec "r1" 75 (Some Pending) 0)) Double.zero)
     = Double.of_Z 150.
Proof.
  destruct (replay_applies_delta_again OpCreate None (rec "r1" 75 (Some Pending) 0)
             acc0 (noon 2024 3 15) (noon 2024 3 15)
             None (DLedger.of_record (rec "r1" 75 (Some Pending) 0)) Double.zero
             eq_refl eq_refl) as [E1 E2].
  split; [reflexivity|]. split.
  - rewrite E1. reflexivity.
  - rewrite E2. vm_compute. reflexivity.
Defined.


(** C4 counterexample: the same create of 75 delivered twice to
    afterChange leaves the balance at 150. *)
Lemma replay_counterexample :
  option_map (fun a => accountBalance (billingInfo a))
    (accounts (snd (replayed_create (world_with acc0 []))) !! "a1") = Some 150.
Proof. vm_compute. reflexivity. Qed.


(** C5: monthly cadence, billing day 31, reference time 2024-04-10 12:00
    UTC. [setDate(31)] in April rolls over, and the computed
    nextBillingDate is 2024-05-01 (day 1 of the next month), not a
    day-31 date. *)
Theorem monthly_day31_rolls_over :
  Commercial.nextBillingDate_of Monthly 31 None (noon 2024 4 10) = JSDate.ymd 2024 5 1
  /\ JSString.iso_date (Commercial.nextBillingDate_of Monthly 31 None (noon 2024 4 10))
     = "2024-05-01".
Proof. split; vm_compute; reflexivity. Qed.


(** C6 (amended): take an update of a paid record that stays paid, and let
    diff = new paidAmount - old paidAmount. If diff = 0, the balance moves
    by the amount delta alone. Otherwise the new balance is
    [max(0, balance + amount delta - diff)], so it is clamped at zero. *)
Theorem paid_to_paid_balance (prev doc : BillingRecord) (acc : Account) (today : Z)
  (Hd : is_paid (status doc) = true) (Hp : is_paid (status prev) = true) :
  let b' := accountBalance (billingInfo acc) + (amount doc - amount prev) in
  let diff := paidAmount doc - paidAmount prev in
  accountBalance (billingInfo (account_after_change OpUpdate (Some prev) doc acc today))
  = if diff =? 0 then b' else Z.max 0 (b' - diff).
Proof.
  intros b' diff. unfold account_after_change, plan, apply_update. cbn [billingInfo].
  rewrite overdue_update_billingInfo. unfold payment_status_update.
  rewrite Hd, Hp. cbn [andb negb]. fold diff.
  destruct (diff =? 0); reflexivity.
Qed.


(** Witness of C6: scenario E from a balance of 10 gives 35. *)
Lemma paid_to_paid_balance_witness :
  is_paid (status (rec "r1" 75 (Some Paid) 50)) = true
  /\ is_paid (status (rec "r1" 75 (Some Paid) 75)) = true
  /\ accountBalance (billingInfo (account_after_change OpUpdate
        (Some (rec "r1" 75 (Some Paid) 75)) (rec "r1" 75 (Some Paid) 50) (acc_with 10)
        (noon 2024 3 20))) = 35.
Proof.
  split; [reflexivity|]. split; [reflexivity|].
  rewrite (paid_to_paid_balance (rec "r1" 75 (Some Paid) 75) (rec "r1" 75 (Some Paid) 50)
             (acc_with 10) (noon 2024 3 20) eq_refl eq_refl).
  reflexivity.
Defined.


(** C6 counterexample: from a balance of -100, lowering a paid record's
    paidAmount from 75 to 50 gives 0, not -75. *)
Lemma paid_to_paid_counterexample :
  accountBalance (billingInfo (account_after_change OpUpdate
     (Some (rec "r1" 75 (Some Paid) 75)) (rec "r1" 75 (Some Paid) 50) (acc_with (-100))
     (noon 2024 3 20))) = 0.
Proof. vm_compute. reflexivity. Qed.


Lemma prefix_append (a b s : string) :
  String.prefix (String.append a b) s = true -> String.prefix a s = true.
Proof.
  revert s. induction a as [|c a IH]; intros s H; [destruct s; reflexivity|].
  destruct s as [|c' s]; [discriminate|]. simpl in H |- *.
  destruct (ascii_dec c c'); [exact (IH s H)|discriminate].
Qed.

Lemma prefix_lower (p s : string) :
  String.prefix p s = true -> String.prefix (JSString.lower p) (JSString.lower s) = true.
Proof.
  revert s. induction p as [|c p IH]; intros s H; [destruct (JSString.lower s); reflexivity|].
  destruct s as [|c' s]; [discriminate|]. simpl in H |- *.
  destruct (ascii_dec c c') as [<-|]; [|discriminate].
  destruct (ascii_dec _ _) as [_|n]; [exact (IH s H)|congruence].
Qed.

Lemma startsWith_contains (s code : string) :
  JSString.startsWith s (String.append code "-") = true -> JSString.contains s code = true.
Proof.
  unfold JSString.startsWith, JSString.contains. intros H.
  apply prefix_append, prefix_lower in H.
  destruct (JSString.lower s) as [|c t]; unfold JSString.contains_sub; rewrite H; reflexivity.
Qed.

Lemma filter_prefix_code (code : string) (nums : list (option string)) :
  List.filter (InvoiceNumber.has_prefix (String.append code "-")) (List.filter (InvoiceNumber.has_code code) nums)
  = List.filter (InvoiceNumber.has_prefix (String.append code "-")) nums.
Proof.
  induction nums as [|n ns IH]; [reflexivity|]. cbn.
  destruct (InvoiceNumber.has_prefix (String.append code "-") n) eqn:Ep.
  - assert (Hc : InvoiceNumber.has_code code n = true).
    { destruct n as [s|]; [|discriminate]. apply startsWith_contains. exact Ep. }
    rewrite Hc. cbn. rewrite Ep, IH. reflexivity.
  - destruct (InvoiceNumber.has_code code n); cbn; [rewrite Ep|]; exact IH.
Qed.

Lemma beforeChange_billingNumber (data : BillingRecord) (n : nat) (today : Z) :
  billingNumber data = None ->
  billingNumber (BillingBefore.beforeChange OpCreate data n today)
  = Some (BillingBefore.bill_number n).
Proof.
  intros H. unfold BillingBefore.beforeChange. rewrite H. cbn.
  repeat case_match; reflexivity.
Qed.


(** C9 (amended): a billing record created without a billingNumber gets
    ["BILL-" + zeroPad(totalDocs + 1, 6)]. When at most 1000 invoice
    numbers contain the borough code C (the query's [limit: 1000]), an
    invoice gets [C + "-" + zeroPad(k + 1, 6)], where k counts the invoice
    numbers that start with ["C-"]. *)
Theorem sequential_ids (data : BillingRecord) (totalDocs : nat) (today : Z)
  (code : string) (nums : list (option string))
  (Hb : billingNumber data = None)
  (Hlim : (List.length (List.filter (InvoiceNumber.has_code code) nums) <= 1000)%nat) :
  billingNumber (BillingBefore.beforeChange OpCreate data totalDocs today)
  = Some (String.append "BILL-" (JSString.zeroPad6 (S totalDocs)))
  /\ InvoiceNumber.generate code nums
     = String.append code (String.append "-" (JSString.zeroPad6
         (S (List.length (List.filter (InvoiceNumber.has_prefix (String.append code "-")) nums))))).
Proof.
  split; [exact (beforeChange_billingNumber data totalDocs today Hb)|].
  unfold InvoiceNumber.generate, InvoiceNumber.find_contains.
  rewrite firstn_all2 by exact Hlim.
  rewrite filter_prefix_code. reflexivity.
Qed.


(** Witness of C9. *)
Lemma sequential_ids_witness :
  billingNumber (rec "r1" 75 (Some Pending) 0) = None
  /\ (List.length (List.filter (InvoiceNumber.has_code "BK") sample_invoices) <= 1000)%nat
  /\ InvoiceNumber.generate "BK" sample_invoices = "BK-000003".
Proof.
  assert (Hb : billingNumber (rec "r1" 75 (Some Pending) 0) = None) by reflexivity.
  assert (Hl : (List.length (List.filter (InvoiceNumber.has_code "BK") sample_invoices) <= 1000)%nat)
    by (vm_compute; lia).
  split; [exact Hb|]. split; [exact Hl|].
  destruct (sequential_ids (rec "r1" 75 (Some Pending) 0) 0 (noon 2024 3 15) "BK"
              sample_invoices Hb Hl) as [_ ->].
  vm_compute. reflexivity.
Defined.


(** C9 counterexample: with 1001 invoices BK-000001 .. BK-001001, the next
    number is BK-001001 rather than BK-001002. *)
Lemma invoice_limit_counterexample :
  List.length (List.filter (InvoiceNumber.has_prefix "BK-") bk_invoices) = 1001%nat
  /\ InvoiceNumber.generate "BK" bk_invoices = "BK-001001".
Proof. split; vm_compute; reflexivity. Qed.


(** C1 counterexample. First, create a record of 75, pay it in full,
    then delete it: the balance ends at -75, while the ledger recomputed
    from the log is 0. Second, with fractional amounts, create records of
    0.1 and 0.2 and delete the first: the balance is the double
    0.20000000000000004, while the one remaining record has amount 0.2. *)
Lemma ledger_counterexample :
  (DLedger.d_balance (DLedger.run DLedger.init (map DLedger.of_event paid_then_deleted))
     = Double.of_Z (-75)
   /\ ledger (log_records paid_then_deleted) = 0)
  /\ (DLedger.d_balance (DLedger.run DLedger.init tenth_then_fifth) = fifth_plus_ulp
      /\ DLedger.d_records (DLedger.run DLedger.init tenth_then_fifth)
         = {[ "r2" := rec_fifth ]}
      /\ DLedger.d_amount rec_fifth = fifth
      /\ fifth_plus_ulp <> fifth).
Proof. split; [split|split; [|split; [|split]]]; try (vm_compute; reflexivity). discriminate. Qed.


(** Witness of C1: a valid run with two records, amounts up to 75. *)
Lemma balance_is_ledger_witness :
  accountBalance (billingInfo acc0) = 0
  /\ valid_run (noon 2024 3 20) (init acc0) two_records = true
  /\ forallb (DLedger.within 75) two_records = true
  /\ 2 * 75 * (Z.of_nat (length two_records) + 2) < 2 ^ 53
  /\ DLedger.d_balance (DLedger.run DLedger.init (map DLedger.of_event (take 3 two_records)))
     = Double.of_Z (ledger (log_records (take 3 two_records)))
  /\ ledger (log_records two_records) = 40.
Proof.
  assert (H0 : accountBalance (billingInfo acc0) = 0) by reflexivity.
  assert (Hv : valid_run (noon 2024 3 20) (init acc0) two_records = true)
    by (vm_compute; reflexivity).
  assert (Hw : forallb (DLedger.within 75) two_records = true)
    by (vm_compute; reflexivity).
  assert (HB : 2 * 75 * (Z.of_nat (length two_records) + 2) < 2 ^ 53)
    by (vm_compute; reflexivity).
  split; [exact H0|]. split; [exact Hv|]. split; [exact Hw|]. split; [exact HB|]. split.
  - exact (balance_is_ledger (noon 2024 3 20) acc0 two_records 75 H0 Hv Hw HB 3).
  - vm_compute. reflexivity.
Defined.


(** C2 counterexample: a create during which the account write fails
    still succeeds. The record is saved, and the account balance stays 0. *)
Lemma account_write_failure_counterexample :
  let w := world_with acc0 [CUpdateAccount] in
  is_ok (fst (mutate OpCreate rec_A (noon 2024 3 15) w)) = true
  /\ option_map status (records (snd (mutate OpCreate rec_A (noon 2024 3 15) w)) !! "r1")
     = Some (Some Pending)
  /\ option_map (fun a => accountBalance (billingInfo a))
       (accounts (snd (mutate OpCreate rec_A (noon 2024 3 15) w)) !! "a1") = Some 0.
Proof. vm_compute. split; [reflexivity|]. split; reflexivity. Qed.


(** Witness of C2. *)
Lemma account_write_failure_is_swallowed_witness :
  fails (world_with acc0 [CUpdateAccount]) CWriteRecord = false
  /\ fails (world_with acc0 [CUpdateAccount]) CUpdateAccount = true
  /\ accounts (snd (mutate OpCreate rec_A (noon 2024 3 15) (world_with acc0 [CUpdateAccount])))
     = accounts (world_with acc0 [CUpdateAccount]).
Proof.
  assert (Hw : fails (world_with acc0 [CUpdateAccount]) CWriteRecord = false)
    by (vm_compute; reflexivity).
  assert (Hu : fails (world_with acc0 [CUpdateAccount]) CUpdateAccount = true)
    by (vm_compute; reflexivity).
  split; [exact Hw|]. split; [exact Hu|].
  destruct (account_write_failure_is_swallowed _ Hw Hu) as [H _].
  destruct (H OpCreate rec_A (noon 2024 3 15)) as (_ & H2 & _); [discriminate|].
  exact H2.
Defined.




(** Witness of C7. *)
Lemma scenario_A_create_witness :
  (JSDate.ymd 2024 3 15 <= noon 2024 3 15 < JSDate.ymd 2024 4 15)
  /\ accountBalance (billingInfo acc0) = 0
  /\ dueDate (BillingBefore.beforeChange OpCreate rec_A 0 (noon 2024 3 15))
     = Some (JSDate.ymd 2024 4 14).
Proof.
  assert (Ht : JSDate.ymd 2024 3 15 <= noon 2024 3 15 < JSDate.ymd 2024 4 15).
  { split; [apply Z.leb_le | apply Z.ltb_lt]; vm_compute; reflexivity. }
  assert (Hb : accountBalance (billingInfo acc0) = 0) by reflexivity.
  assert (Hg : forall g, gracePeriodDays (paymentInfo acc0) = Some g -> 0 <= g).
  { intros g Hg. vm_compute in Hg. injection Hg as <-. lia. }
  split; [exact Ht|]. split; [exact Hb|].
  destruct (scenario_A_create (noon 2024 3 15) acc0 0 Ht Hb Hg) as [Hd _].
  exact Hd.
Defined.


(** C8 counterexample: a create of a pending record during which the
    account write fails reports success but starts no notification. *)
Lemma notification_counterexample :
  let w := world_with acc0 [CUpdateAccount] in
  notifies OpCreate (BillingBefore.beforeChange OpCreate rec_A (size (records w)) (noon 2024 3 15))
    = true
  /\ is_ok (fst (mutate OpCreate rec_A (noon 2024 3 15) w)) = true
  /\ invoiced (snd (mutate OpCreate rec_A (noon 2024 3 15) w)) = false
  /\ outbox (snd (mutate OpCreate rec_A (noon 2024 3 15) w)) = [].
Proof. vm_compute. split; [reflexivity|]. split; [reflexivity|]. split; reflexivity. Qed.


(** Witness of C8. *)
Lemma notification_follows_account_write_witness :
  fails (world_with acc0 []) CWriteRecord = false
  /\ invoiced (snd (mutate OpCreate rec_A (noon 2024 3 15) (world_with acc0 []))) = true
  /\ fst (mutate OpCreate rec_A (noon 2024 3 15) (world_with acc0 []))
     = Ok (BillingBefore.beforeChange OpCreate rec_A 0 (noon 2024 3 15)).
Proof.
  assert (Hw : fails (world_with acc0 []) CWriteRecord = false) by (vm_compute; reflexivity).
  split; [exact Hw|]. split; [vm_compute; reflexivity|].
  destruct (notification_follows_account_write OpCreate rec_A (noon 2024 3 15)
              (world_with acc0 []) Hw) as [H _].
  exact H.
Defined.


(** Witness of C10: deleting a paid record of 75 from an account of
    balance 0 gives -75. *)
Lemma afterDelete_subtracts_amount_witness :
  account (rec "r1" 75 (Some Paid) 75) = Some "a1"
  /\ accounts (world_with acc0 []) !! "a1" = Some acc0
  /\ option_map (fun a => accountBalance (billingInfo a))
       (accounts (snd (afterDelete (rec "r1" 75 (Some Paid) 75) (world_with acc0 []))) !! "a1")
     = Some (-75).
Proof.
  assert (Ha : account (rec "r1" 75 (Some Paid) 75) = Some "a1") by reflexivity.
  assert (Hf : accounts (world_with acc0 []) !! "a1" = Some acc0) by (vm_compute; reflexivity).
  assert (H1 : fails (world_with acc0 []) CFindAccount = false) by (vm_compute; reflexivity).
  assert (H2 : fails (world_with acc0 []) CUpdateAccount = false) by (vm_compute; reflexivity).
  split; [exact Ha|]. split; [exact Hf|].
  destruct (afterDelete_subtracts_amount _ _ _ _ Ha Hf H1 H2) as [_ ->].
  vm_compute. reflexivity.
Defined.

(* ------------------------------------------------------------------ *)
(** ** Further properties of the code *)

(** Lemmas on beforeChange of residential-billing. *)

Lemma beforeChange_update_noop (x : BillingRecord) (n : nat) (t : Z)
  (Hd : billingDate x = None \/ dueDate x <> None)
  (Hs : forall due, dueDate x = Some due ->
        negb (is_paid (status x)) && negb (is_cancelled (status x))
        && (JSDate.setHours0 due <? JSDate.setHours0 t) && unset_or_pending (status x) = false) :
  BillingBefore.beforeChange OpUpdate x n t = x.
Proof.
  unfold BillingBefore.beforeChange.
  destruct (dueDate x) as [due|] eqn:Ed.
  - specialize (Hs due eq_refl).
    destruct (negb (is_paid (status x)) && negb (is_cancelled (status x))) eqn:E1;
      cbn [andb] in Hs; rewrite ?Hs; destruct (billingDate x); rewrite ?Ed, ?E1, ?Hs; reflexivity.
  - destruct Hd as [Hb|Hd]; [|congruence]. rewrite Hb, Ed. reflexivity.
Qed.

Lemma beforeChange_shape (op : operation) (data : BillingRecord) (n : nat) (t : Z) :
  exists d2, billingDate d2 = billingDate data
    /\ dueDate d2 = match dueDate data, billingDate data with
                    | Some d, _ => Some d
                    | None, Some bd => Some (JSDate.date_only (JSDate.add_days bd 30))
                    | None, None => None
                    end
    /\ status d2 = status data
    /\ BillingBefore.beforeChange op data n t
       = match dueDate d2 with
         | Some due =>
             if negb (is_paid (status d2)) && negb (is_cancelled (status d2))
                && (JSDate.setHours0 due <? JSDate.setHours0 t)
                && unset_or_pending (status d2)
             then set_status d2 Overdue else d2
         | None => d2
         end.
Proof.
  unfold BillingBefore.beforeChange.
  set (d1 := match op, billingNumber data with
             | OpCreate, (None | Some EmptyString) =>
                 set_billingNumber data (BillingBefore.bill_number n)
             | _, _ => data end).
  assert (H1 : billingDate d1 = billingDate data /\ dueDate d1 = dueDate data
               /\ status d1 = status data).
  { unfold d1. destruct op, (billingNumber data) as [[]|]; auto. }
  destruct H1 as (Hb1 & Hd1 & Hs1).
  set (d2 := match billingDate d1, dueDate d1 with
             | Some bd, None => set_dueDate d1 (JSDate.date_only (JSDate.add_days bd 30))
             | _, _ => d1 end).
  exists d2.
  assert (H2 : billingDate d2 = billingDate data /\ status d2 = status data
    /\ dueDate d2 = match dueDate data, billingDate data with
                    | Some d, _ => Some d
                    | None, Some bd => Some (JSDate.date_only (JSDate.add_days bd 30))
                    | None, None => None
                    end).
  { unfold d2. rewrite Hb1, Hd1. destruct (billingDate data), (dueDate data); cbn; auto. }
  destruct H2 as (Hb2 & Hs2 & Hd2).
  split; [exact Hb2|]. split; [exact Hd2|]. split; [exact Hs2|].
  destruct (dueDate d2) as [due|]; [|reflexivity].
  destruct (negb (is_paid (status d2)) && negb (is_cancelled (status d2))); [|reflexivity].
  reflexivity.
Qed.

Lemma status_of_beforeChange (op : operation) (data : BillingRecord) (n : nat) (t : Z) :
  status (BillingBefore.beforeChange op data n t)
  = if unset_or_pending (status data)
       && match dueDate (BillingBefore.beforeChange op data n t) with
          | Some due => JSDate.setHours0 due <? JSDate.setHours0 t
          | None => false
          end
    then Some Overdue else status data.
Proof.
  destruct (beforeChange_shape op data n t) as (d2 & Hb & Hd & Hs & ->).
  rewrite Hs. destruct (dueDate d2) as [due|] eqn:Ed.
  - destruct (JSDate.setHours0 due <? JSDate.setHours0 t) eqn:El;
      destruct (status data) as [[]|]; cbn; rewrite ?Ed, ?Hs; cbn; rewrite ?El; cbn;
      rewrite ?Ed, ?Hs; reflexivity.
  - rewrite Ed, Hs. destruct (unset_or_pending (status data)); reflexivity.
Qed.

(** Lemmas on the e-mails sent. *)

Lemma mail_quiet_bind {A B} (m : M A) (k : A -> M B) :
  Callers.mail_quiet m -> (forall a, Callers.mail_quiet (k a)) -> Callers.mail_quiet (m ≫= k).
Proof.
  intros Hm Hk w. unfold mbind, M_bind, bind.
  destruct (Hm w) as (H1 & H2 & H3). destruct (m w) as [[a|e] w1]; cbn in *; [|auto].
  destruct (Hk a w1) as (K1 & K2 & K3). split; [congruence|split; congruence].
Qed.

Lemma mail_quiet_try_catch {A} (m : M A) h :
  Callers.mail_quiet m -> (forall e, Callers.mail_quiet (h e)) -> Callers.mail_quiet (try_catch m h).
Proof.
  intros Hm Hh w. unfold try_catch.
  destruct (Hm w) as (H1 & H2 & H3). destruct (m w) as [[a|e] w1]; cbn in *; [auto|].
  destruct (Hh e w1) as (K1 & K2 & K3). split; [congruence|split; congruence].
Qed.

Lemma mail_quiet_attempt {A} c (k : M A) :
  Callers.mail_quiet k -> Callers.mail_quiet (attempt c k).
Proof.
  intros Hk w. unfold attempt. destruct (fails w c); [cbn; auto|].
  destruct (Hk (w_trace w c true)) as (K1 & K2 & K3). cbn in *. auto.
Qed.

Lemma mail_quiet_updateRecord id f : Callers.mail_quiet (updateRecord id f).
Proof.
  apply mail_quiet_attempt. intros w. unfold_monad. cbn.
  destruct (records w !! id); cbn; auto.
Qed.

Lemma mail_quiet_createStripeInvoice acc doc : Callers.mail_quiet (createStripeInvoice acc doc).
Proof.
  intros w. unfold createStripeInvoice. unfold_monad. cbn.
  destruct (stripe_configured w); cbn; [|auto].
  destruct (stripeCustomerId acc); cbn; [|auto].
  destruct (existsb _ _); cbn; auto.
Qed.

Lemma mail_quiet_getInvoicePaymentLink i : Callers.mail_quiet (getInvoicePaymentLink i).
Proof.
  intros w. unfold getInvoicePaymentLink. unfold_monad. cbn.
  destruct (stripe_configured w); cbn; [|auto].
  destruct (existsb _ _); cbn; auto.
Qed.

Lemma sendInvoiceEmail_mails acc doc i link w :
  fst (sendInvoiceEmail acc doc i link w) = Ok tt
  /\ outbox (snd (sendInvoiceEmail acc doc i link w)) = outbox w ++ Callers.mailed acc w link
  /\ failing (snd (sendInvoiceEmail acc doc i link w)) = failing w
  /\ smtp_configured (snd (sendInvoiceEmail acc doc i link w)) = smtp_configured w.
Proof.
  unfold sendInvoiceEmail, Callers.mailed, fails. destruct (email acc) as [addr|];
    [|cbn; rewrite app_nil_r; auto].
  unfold_monad. cbn. destruct (smtp_configured w) eqn:Es; cbn; [|rewrite app_nil_r; auto].
  destruct (existsb _ _); cbn; rewrite ?app_nil_r; auto.
Qed.

Lemma mailed_frame acc w w' link :
  failing w' = failing w -> smtp_configured w' = smtp_configured w ->
  Callers.mailed acc w' link = Callers.mailed acc w link.
Proof. intros H1 H2. unfold Callers.mailed, fails. rewrite H1, H2. reflexivity. Qed.

Lemma once_send acc doc i link : Callers.once_or_fails acc (sendInvoiceEmail acc doc i link).
Proof.
  intros w. destruct (sendInvoiceEmail_mails acc doc i link w) as (H1 & H2 & H3 & H4).
  split; [exact H3|]. split; [exact H4|]. left. split; [exact H1|]. eauto.
Qed.

Lemma once_bind {A} acc (m : M A) (k : A -> M unit) :
  Callers.mail_quiet m -> (forall a, Callers.once_or_fails acc (k a)) -> Callers.once_or_fails acc (m ≫= k).
Proof.
  intros Hm Hk w. unfold mbind, M_bind, bind.
  destruct (Hm w) as (H1 & H2 & H3). destruct (m w) as [[a|e] w1]; cbn in *.
  - destruct (Hk a w1) as (K2 & K3 & K). split; [congruence|]. split; [congruence|].
    destruct K as [[Ko [link Kl]]|[Ke Kq]]; [left; split; [exact Ko|]|right; split; [exact Ke|congruence]].
    exists link. rewrite Kl, H1. f_equal. apply mailed_frame; assumption.
  - split; [exact H2|]. split; [exact H3|]. right. split; [eauto|exact H1].
Qed.

(** Lemmas on invoice numbers. *)

Lemma prefix_app_same (a b c : string) :
  String.prefix (String.append a b) (String.append a c) = String.prefix b c.
Proof.
  induction a as [|x a IH]; [reflexivity|]. simpl.
  destruct (ascii_dec x x); [exact IH|congruence].
Qed.

Lemma generate_has_prefix (code : string) (nums : list (option string)) :
  InvoiceNumber.has_prefix (String.append code "-") (Some (InvoiceNumber.generate code nums)) = true.
Proof.
  unfold InvoiceNumber.has_prefix, InvoiceNumber.generate, JSString.startsWith.
  rewrite prefix_app_same. generalize (JSString.zeroPad6 (S (List.length (List.filter (InvoiceNumber.has_prefix (String.append code "-")) (InvoiceNumber.find_contains code nums))))). intros x. simpl. destruct x; reflexivity.
Qed.

Lemma ref_truthy_of_id (r : Invoices.ref) (i : string) :
  Invoices.ref_id r = Some i -> Invoices.truthy i = true -> Invoices.ref_truthy r = true.
Proof. destruct r; cbn; [intros [= ->]; auto | auto]. Qed.

Lemma number_for_code (st : Invoices.IStore) (cid : string) (b : Invoices.ref)
  (bid code : string)
  (Hacc : Invoices.account_borough st !! cid = Some (Some b))
  (Hbid : Invoices.ref_id b = Some bid) (Hbidt : Invoices.truthy bid = true)
  (Hcode : Invoices.borough_code st !! bid = Some (Some code))
  (Hcodet : Invoices.truthy code = true) (Hfind : Invoices.find_fails st = false) :
  Invoices.number_for st cid
  = Ok (Some (InvoiceNumber.generate code (Invoices.invoice_numbers st))).
Proof.
  unfold Invoices.number_for. rewrite Hacc, (ref_truthy_of_id b bid Hbid Hbidt), Hbid,
    Hbidt, Hcode, Hcodet, Hfind. reflexivity.
Qed.


(** X1: [calculateDaysUntilDue] gives the number of calendar days from
    today's date to the due date, and 0 when the due date is today or in
    the past; the times of day play no part. *)
Theorem calculateDaysUntilDue_days (dueDate today : Z) :
  StripeHelpers.calculateDaysUntilDue dueDate today
  = Z.max 0 (JSDate.day_number dueDate - JSDate.day_number today).
Proof.
  unfold StripeHelpers.calculateDaysUntilDue, JSDate.setHours0.
  f_equal.
  replace (- (JSDate.day_number dueDate * JSDate.msPerDay - JSDate.day_number today * JSDate.msPerDay))
    with ((JSDate.day_number today - JSDate.day_number dueDate) * JSDate.msPerDay) by lia.
  rewrite Z.div_mul by (unfold JSDate.msPerDay; lia). lia.
Qed.

(** X3: markBillingAsPaid on an id with no stored record fails with
    NotFound after logging the error; no account and no record changes. *)
Theorem markBillingAsPaid_missing (billingId : string) (p : Z) (pd : option Z)
  (today : Z) (w : World) (Hnone : records w !! billingId = None) :
  fst (Callers.markBillingAsPaid billingId p pd today w) = Err "NotFound"
  /\ accounts (snd (Callers.markBillingAsPaid billingId p pd today w)) = accounts w
  /\ records (snd (Callers.markBillingAsPaid billingId p pd today w)) = records w
  /\ log (snd (Callers.markBillingAsPaid billingId p pd today w))
     = log w ++ ["Error updating billing record:"].
Proof.
  unfold Callers.markBillingAsPaid. unfold_monad. cbn -[mutate]. rewrite Hnone.
  cbn. auto.
Qed.

(** X8: the billing beforeChange hook is stable: saving its output again
    as an update on the same calendar day gives the same document (no new
    number, no new due date, no status change). *)
Theorem beforeChange_resave (op : operation) (data : BillingRecord) (n n' : nat)
  (t t' : Z) (Hday : JSDate.setHours0 t' = JSDate.setHours0 t) :
  BillingBefore.beforeChange OpUpdate (BillingBefore.beforeChange op data n t) n' t'
  = BillingBefore.beforeChange op data n t.
Proof.
  destruct (beforeChange_shape op data n t) as (d2 & Hb & Hd & Hs & ->).
  destruct (dueDate d2) as [due|] eqn:Ed.
  - destruct (negb (is_paid (status d2)) && negb (is_cancelled (status d2))
              && (JSDate.setHours0 due <? JSDate.setHours0 t)
              && unset_or_pending (status d2)) eqn:Ec;
    apply beforeChange_update_noop.
    + right. cbn. congruence.
    + intros due'. cbn. intros _. rewrite andb_false_r. reflexivity.
    + right. congruence.
    + intros due' Hdue'. rewrite Ed in Hdue'. injection Hdue' as <-.
      rewrite Hday. exact Ec.
  - apply beforeChange_update_noop; [|congruence].
    left. rewrite Hb. destruct (dueDate data), (billingDate data); congruence.
Qed.

(** X9: the billing beforeChange hook changes a status only from unset or
    [pending], and only to [overdue], exactly when the due date of the
    saved document lies on a day before today; [paid], [cancelled] and
    [overdue] are never changed. *)
Theorem beforeChange_status (op : operation) (data : BillingRecord) (n : nat) (t : Z) :
  status (BillingBefore.beforeChange op data n t)
  = if unset_or_pending (status data)
       && match dueDate (BillingBefore.beforeChange op data n t) with
          | Some due => JSDate.setHours0 due <? JSDate.setHours0 t
          | None => false
          end
    then Some Overdue else status data.
Proof. exact (status_of_beforeChange op data n t). Qed.

(** X10: the invoice-and-email block of afterChange sends at most one
    e-mail: one to the account's address exactly when the account has an
    address, SMTP is configured and sending does not fail, also when the
    Stripe steps fail and the fallback path is taken; none otherwise. *)
Theorem notify_mails_once (acc : Account) (doc : BillingRecord) (w : World) :
  exists link, outbox (snd (notify acc doc w)) = outbox w ++ Callers.mailed acc w link.
Proof.
  assert (Htry : Callers.once_or_fails acc
    (invoiceId ← createStripeInvoice acc doc;
     match invoiceId with
     | Some iid =>
         updateRecord (rec_id doc) (fun r => set_stripeInvoiceId r iid) ;;
         paymentLink ← getInvoicePaymentLink iid;
         sendInvoiceEmail acc doc (Some iid) paymentLink
     | None => sendInvoiceEmail acc doc None None
     end)).
  { apply once_bind; [apply mail_quiet_createStripeInvoice|]. intros [iid|]; [|apply once_send].
    apply once_bind; [apply mail_quiet_updateRecord|]. intros _.
    apply once_bind; [apply mail_quiet_getInvoicePaymentLink|]. intros link. apply once_send. }
  unfold notify, try_catch at 1.
  destruct (Htry w) as (H2 & H3 & H).
  match goal with |- context [match ?m w with _ => _ end] => destruct (m w) as [r w1] eqn:E end.
  cbn in H2, H3, H.
  destruct r as [[]|e].
  - destruct H as [[_ [link Hl]]|[[e He] _]]; [exists link; exact Hl|discriminate].
  - destruct H as [[Ho _]|[_ Hq]]; [discriminate|].
    unfold console, mbind, M_bind, bind, try_catch. cbn.
    destruct (sendInvoiceEmail_mails acc doc None None (w_log w1 "Error creating Stripe invoice or sending email:"))
      as (S1 & S2 & S3 & S4).
    destruct (sendInvoiceEmail acc doc None None (w_log w1 _)) as [r2 w2].
    cbn in S1, S2, S3, S4 |- *. subst r2. exists None.
    change (outbox w2 = outbox w ++ Callers.mailed acc w None). rewrite S2, Hq.
    f_equal. apply mailed_frame; cbn; assumption.
Qed.

(** X11: invoice numbers of a borough are sequential: once a generated
    number is stored (anywhere among the invoices), the next generation
    for the same code gives the following number, as long as fewer than
    1000 invoice numbers contain the code. *)
Theorem generate_next (code : string) (nums1 nums2 : list (option string))
  (Hlim : (List.length (List.filter (InvoiceNumber.has_code code) (nums1 ++ nums2)) < 1000)%nat) :
  InvoiceNumber.generate code
    (nums1 ++ Some (InvoiceNumber.generate code (nums1 ++ nums2)) :: nums2)
  = String.append code (String.append "-" (JSString.zeroPad6
      (S (S (List.length (List.filter (InvoiceNumber.has_prefix (String.append code "-"))
                                      (nums1 ++ nums2))))))).
Proof.
  pose proof (generate_has_prefix code (nums1 ++ nums2)) as Hp.
  assert (Hc : InvoiceNumber.has_code code (Some (InvoiceNumber.generate code (nums1 ++ nums2))) = true).
  { apply startsWith_contains. exact Hp. }
  unfold InvoiceNumber.generate at 1, InvoiceNumber.find_contains.
  rewrite firstn_all2.
  2:{ rewrite List.filter_app in Hlim |- *. cbn [List.filter]. rewrite Hc.
      rewrite List.length_app in Hlim |- *. cbn [List.length]. lia. }
  rewrite filter_prefix_code, !List.filter_app. cbn [List.filter]. rewrite Hp.
  rewrite !List.length_app. cbn [List.length]. do 4 f_equal. lia.
Qed.

(** X12: the invoices beforeChange hook never replaces an existing
    invoice number unless the customer changed: with a (non-empty)
    invoiceNumber and an unchanged customer it returns the data as is,
    whatever the lookups would give. *)
Theorem invoice_number_kept (st : Invoices.IStore) (data : Invoices.InvoiceData)
  (originalDoc : option Invoices.InvoiceData)
  (Hn : Invoices.opt_truthy (Invoices.invoiceNumber data) = true)
  (Hc : Invoices.customer_changed originalDoc
          (match Invoices.customer data with Some c => Invoices.ref_id c | None => None end)
        = false) :
  Invoices.beforeChange st data originalDoc = Ok data.
Proof.
  unfold Invoices.beforeChange. destruct (Invoices.customer data) as [c|]; [|reflexivity].
  destruct (Invoices.ref_truthy c); [|reflexivity].
  rewrite Hn, Hc. destruct (Invoices.ref_id c); reflexivity.
Qed.

(** X13: when a number is due (none yet, or the customer changed) and the
    customer's account has a borough with a code, the invoices
    beforeChange hook sets invoiceNumber to the next number of that code,
    replacing any previous number. *)
Theorem invoice_number_from_borough (st : Invoices.IStore) (data : Invoices.InvoiceData)
  (originalDoc : option Invoices.InvoiceData) (c b : Invoices.ref) (cid bid code : string)
  (Hc : Invoices.customer data = Some c) (Hid : Invoices.ref_id c = Some cid)
  (Hcid : Invoices.truthy cid = true)
  (Hdue : negb (Invoices.opt_truthy (Invoices.invoiceNumber data))
          || Invoices.customer_changed originalDoc (Some cid) = true)
  (Hacc : Invoices.account_borough st !! cid = Some (Some b))
  (Hbid : Invoices.ref_id b = Some bid) (Hbidt : Invoices.truthy bid = true)
  (Hcode : Invoices.borough_code st !! bid = Some (Some code))
  (Hcodet : Invoices.truthy code = true) (Hfind : Invoices.find_fails st = false) :
  Invoices.beforeChange st data originalDoc
  = Ok (Invoices.set_invoiceNumber data
          (InvoiceNumber.generate code (Invoices.invoice_numbers st))).
Proof.
  unfold Invoices.beforeChange. rewrite Hc, (ref_truthy_of_id c cid Hid Hcid), Hid.
  cbn [Invoices.opt_truthy]. rewrite Hdue, Hcid. cbn [andb].
  rewrite (number_for_code st cid b bid code Hacc Hbid Hbidt Hcode Hcodet Hfind).
  reflexivity.
Qed.

(** X14: when a number is due and a lookup of the chain throws (missing
    account or borough, failing query), the invoices beforeChange hook
    keeps an existing number; without one it counts all invoices and sets
    "INV-" followed by the count plus one padded to six digits, and fails
    when that count fails. *)
Theorem invoice_number_fallback (st : Invoices.IStore) (data : Invoices.InvoiceData)
  (originalDoc : option Invoices.InvoiceData) (c : Invoices.ref) (cid e : string)
  (Hc : Invoices.customer data = Some c) (Hid : Invoices.ref_id c = Some cid)
  (Hcid : Invoices.truthy cid = true)
  (Hdue : negb (Invoices.opt_truthy (Invoices.invoiceNumber data))
          || Invoices.customer_changed originalDoc (Some cid) = true)
  (Herr : Invoices.number_for st cid = Err e) :
  Invoices.beforeChange st data originalDoc
  = if Invoices.opt_truthy (Invoices.invoiceNumber data) then Ok data
    else if Invoices.count_fails st then Err "count failed"
    else Ok (Invoices.set_invoiceNumber data
               (String.append "INV-" (JSString.zeroPad6
                  (S (List.length (Invoices.invoice_numbers st)))))).
Proof.
  unfold Invoices.beforeChange. rewrite Hc, (ref_truthy_of_id c cid Hid Hcid), Hid.
  cbn [Invoices.opt_truthy]. rewrite Hdue, Hcid. cbn [andb]. rewrite Herr. reflexivity.
Qed.

(** X15: when the customer's account has no borough, the invoices
    beforeChange hook returns the data unchanged: an invoice without a
    number gets none, and the INV- fallback is not used. *)
Theorem invoice_number_no_borough (st : Invoices.IStore) (data : Invoices.InvoiceData)
  (originalDoc : option Invoices.InvoiceData) (c : Invoices.ref) (cid : string)
  (Hc : Invoices.customer data = Some c) (Hid : Invoices.ref_id c = Some cid)
  (Hacc : Invoices.account_borough st !! cid = Some None) :
  Invoices.beforeChange st data originalDoc = Ok data.
Proof.
  unfold Invoices.beforeChange. rewrite Hc, Hid.
  destruct (Invoices.ref_truthy c); [|reflexivity].
  destruct (_ && _); [|reflexivity].
  unfold Invoices.number_for. rewrite Hacc. reflexivity.
Qed.

(** X16: the beforeChange hook of the customer field returns the value
    unchanged and, whenever the customer's borough code is found, sets
    invoiceNumber to the next number of that code, even when the invoice
    already has a number and the customer did not change. *)
Theorem customer_hook_overwrites (st : Invoices.IStore) (data : Invoices.InvoiceData)
  (c b : Invoices.ref) (cid bid code : string)
  (Hid : Invoices.ref_id c = Some cid) (Hcid : Invoices.truthy cid = true)
  (Hacc : Invoices.account_borough st !! cid = Some (Some b))
  (Hbid : Invoices.ref_id b = Some bid) (Hbidt : Invoices.truthy bid = true)
  (Hcode : Invoices.borough_code st !! bid = Some (Some code))
  (Hcodet : Invoices.truthy code = true) (Hfind : Invoices.find_fails st = false) :
  Invoices.customer_beforeChange st (Some c) data
  = (Some c, Invoices.set_invoiceNumber data
               (InvoiceNumber.generate code (Invoices.invoice_numbers st))).
Proof.
  unfold Invoices.customer_beforeChange. rewrite (ref_truthy_of_id c cid Hid Hcid), Hid, Hcid.
  rewrite (number_for_code st cid b bid code Hacc Hbid Hbidt Hcode Hcodet Hfind).
  reflexivity.
Qed.

(** ** Instances of the further properties *)

Ltac by_vm := vm_compute; reflexivity.

Lemma markBillingAsPaid_missing_witness :
  fst (Callers.markBillingAsPaid "r9" 0 None (noon 2024 4 1) pending_world) = Err "NotFound".
Proof.
  exact (proj1 (markBillingAsPaid_missing "r9" 0 None (noon 2024 4 1) pending_world
                  ltac:(by_vm))).
Defined.

Lemma beforeChange_resave_witness :
  BillingBefore.beforeChange OpUpdate
    (BillingBefore.beforeChange OpCreate (rec "r1" 75 (Some Pending) 0) 0 (noon 2024 5 1))
    1 (noon 2024 5 1 + 3600000)
  = BillingBefore.beforeChange OpCreate (rec "r1" 75 (Some Pending) 0) 0 (noon 2024 5 1).
Proof.
  exact (beforeChange_resave OpCreate (rec "r1" 75 (Some Pending) 0) 0 1
           (noon 2024 5 1) (noon 2024 5 1 + 3600000) ltac:(by_vm)).
Defined.

(** BK-000001 and BK-000002 exist: BK-000003 is generated, then BK-000004. *)
Lemma generate_next_witness :
  InvoiceNumber.generate "BK"
    (sample_invoices ++ [Some (InvoiceNumber.generate "BK" (sample_invoices ++ []))])
  = "BK-000004".
Proof.
  rewrite (generate_next "BK" sample_invoices []
             ltac:(apply Nat.ltb_lt; by_vm)).
  by_vm.
Defined.

Lemma invoice_number_kept_witness :
  Invoices.beforeChange inv_store numbered_invoice (Some numbered_invoice)
  = Ok numbered_invoice.
Proof.
  exact (invoice_number_kept inv_store numbered_invoice (Some numbered_invoice)
           ltac:(by_vm) ltac:(by_vm)).
Defined.

Lemma invoice_number_from_borough_witness :
  Invoices.beforeChange inv_store new_invoice None
  = Ok (Invoices.set_invoiceNumber new_invoice "BK-000003").
Proof.
  rewrite (invoice_number_from_borough inv_store new_invoice None
             (Invoices.RefId "acct1") (Invoices.RefId "bor1") "acct1" "bor1" "BK"
             ltac:(by_vm) ltac:(by_vm) ltac:(by_vm) ltac:(by_vm) ltac:(by_vm)
             ltac:(by_vm) ltac:(by_vm) ltac:(by_vm) ltac:(by_vm) ltac:(by_vm)).
  by_vm.
Defined.

Lemma invoice_number_fallback_witness :
  Invoices.beforeChange inv_store_down new_invoice None
  = Ok (Invoices.set_invoiceNumber new_invoice "INV-000006").
Proof.
  rewrite (invoice_number_fallback inv_store_down new_invoice None
             (Invoices.RefId "acct1") "acct1" "NotFound"
             ltac:(by_vm) ltac:(by_vm) ltac:(by_vm) ltac:(by_vm) ltac:(by_vm)).
  by_vm.
Defined.

Lemma invoice_number_no_borough_witness :
  Invoices.beforeChange inv_store (Invoices.mkInvoiceData (Some (Invoices.RefId "acct2")) None) None
  = Ok (Invoices.mkInvoiceData (Some (Invoices.RefId "acct2")) None).
Proof.
  exact (invoice_number_no_borough inv_store
           (Invoices.mkInvoiceData (Some (Invoices.RefId "acct2")) None) None
           (Invoices.RefId "acct2") "acct2" ltac:(by_vm) ltac:(by_vm) ltac:(by_vm)).
Defined.

(** An invoice already numbered BK-000001 is renumbered BK-000003. *)
Lemma customer_hook_overwrites_witness :
  Invoices.customer_beforeChange inv_store (Some (Invoices.RefId "acct1")) numbered_invoice
  = (Some (Invoices.RefId "acct1"), Invoices.set_invoiceNumber numbered_invoice "BK-000003").
Proof.
  rewrite (customer_hook_overwrites inv_store numbered_invoice
             (Invoices.RefId "acct1") (Invoices.RefId "bor1") "acct1" "bor1" "BK"
             ltac:(by_vm) ltac:(by_vm) ltac:(by_vm) ltac:(by_vm) ltac:(by_vm)
             ltac:(by_vm) ltac:(by_vm) ltac:(by_vm)).
  by_vm.
Defined.
